(** * dukakidigitali-frontend: authenticated HTTP client, session hook and
      route guard

    A shallow embedding of
    - [middleware.ts] (the edge route guard),
    - [lib/axiosInstance.ts] (request / response interceptors with the
      refresh-and-retry cycle),
    - [hooks/useAuth.ts] (session resolution, logout, [isAuthenticated]),
    - the [onSubmit] handler of the login page,
    together with the properties of the authentication design that hold of
    them.

    Conventions.  JavaScript strings are [string]; [undefined]/[null] is
    [None]; truthiness of an optional string is [truthy].  The cookie jar of
    [cookies-next] is a finite map from cookie names to the last value and
    options written under that name; the passing of time (and with it the
    expiry of a cookie) is not part of the model, so a cookie written with a
    max-age of zero or less stays in the map with the value it was written
    with, where a browser drops it: what is read back from such a cookie is
    relied on only where its value is empty.  Promises are modelled by
    their settlement ([Fulfilled] / [Rejected]) and [await] by sequencing. *)

From Stdlib Require Import ZArith QArith Qround Ascii String List Bool Lia.
From stdpp Require Import base option gmap strings.
Import ListNotations.

Local Open Scope string_scope.
Local Open Scope Z_scope.
Local Open Scope list_scope.

(* ===================================================================== *)
(** ** JavaScript string and value helpers                                *)
(* ===================================================================== *)

Module Js.

(** [!!v] for [v : string | undefined]. *)
Definition truthy (v : option string) : bool :=
  match v with
  | Some EmptyString => false
  | Some _ => true
  | None => false
  end.

(** [s.startsWith(p)] *)
Definition startsWith (s p : string) : bool := String.prefix p s.

(** [s.includes(sub)] *)
Fixpoint includes (s sub : string) : bool :=
  String.prefix sub s ||
  match s with
  | EmptyString => false
  | String _ s' => includes s' sub
  end.

Fixpoint drop (n : nat) (s : string) : string :=
  match n, s with
  | O, _ => s
  | S n', String _ s' => drop n' s'
  | S _, EmptyString => EmptyString
  end.

(** [s.replace(pat, rep)] with a string pattern: the first occurrence only. *)
Fixpoint replace (s pat rep : string) : string :=
  if String.prefix pat s then String.append rep (drop (String.length pat) s)
  else match s with
       | EmptyString => EmptyString
       | String c s' => String c (replace s' pat rep)
       end.

(** [arr.includes(x)] on an array of strings. *)
Definition array_includes (arr : list string) (x : string) : bool :=
  existsb (String.eqb x) arr.

(** [a || b] on optional strings. *)
Definition or_else (a : option string) (b : string) : string :=
  match a with
  | Some v => if truthy a then v else b
  | None => b
  end.

End Js.

(* ===================================================================== *)
(** ** URLs and the form-urlencoded serialiser of [URLSearchParams]        *)
(* ===================================================================== *)

Module Url.

Record URL := mkURL {
  origin : string;
  pathname : string;
  searchParams : list (string * string)
}.

(** [new URL(path, base)] for an absolute [path]: same origin, no query. *)
Definition new_URL (path : string) (base : URL) : URL :=
  {| origin := origin base; pathname := path; searchParams := [] |}.

(** [url.searchParams.set(k, v)]: overwrite the first entry named [k] and
    drop the others, or append. *)
Fixpoint set_first (k v : string) (l : list (string * string)) : list (string * string) :=
  match l with
  | [] => []
  | (k', v') :: l' =>
      if String.eqb k' k
      then (k, v) :: List.filter (fun kv => negb (String.eqb (fst kv) k)) l'
      else (k', v') :: set_first k v l'
  end.

Definition searchParams_set (k v : string) (u : URL) : URL :=
  {| origin := origin u;
     pathname := pathname u;
     searchParams :=
       if existsb (fun kv => String.eqb (fst kv) k) (searchParams u)
       then set_first k v (searchParams u)
       else searchParams u ++ [(k, v)] |}.

Definition hex_digit (n : N) : ascii :=
  match n with
  | 0%N => "0" | 1%N => "1" | 2%N => "2" | 3%N => "3" | 4%N => "4"
  | 5%N => "5" | 6%N => "6" | 7%N => "7" | 8%N => "8" | 9%N => "9"
  | 10%N => "A" | 11%N => "B" | 12%N => "C" | 13%N => "D" | 14%N => "E"
  | _ => "F"
  end%char.

(** Bytes that the application/x-www-form-urlencoded serialiser leaves
    as they are: ASCII alphanumerics and [* - . _]. *)
Definition unreserved (c : ascii) : bool :=
  let n := N_of_ascii c in
  ((48 <=? n) && (n <=? 57) || (65 <=? n) && (n <=? 90) ||
   (97 <=? n) && (n <=? 122) ||
   (n =? 42) || (n =? 45) || (n =? 46) || (n =? 95))%N.

Fixpoint urlencode (s : string) : string :=
  match s with
  | EmptyString => EmptyString
  | String c s' =>
      if unreserved c then String c (urlencode s')
      else if (N_of_ascii c =? 32)%N then String "+"%char (urlencode s')
      else String "%"%char
             (String (hex_digit (N_of_ascii c / 16))
                (String (hex_digit (N_of_ascii c mod 16)) (urlencode s')))
  end.

Fixpoint serialize (l : list (string * string)) : string :=
  match l with
  | [] => EmptyString
  | [(k, v)] => String.append (urlencode k) (String "="%char (urlencode v))
  | (k, v) :: l' =>
      String.append (urlencode k)
        (String "="%char (String.append (urlencode v) (String "&"%char (serialize l'))))
  end.

(** [url.search]: empty, or ["?"] followed by the serialised parameters. *)
Definition search (u : URL) : string :=
  match searchParams u with
  | [] => EmptyString
  | l => String "?"%char (serialize l)
  end.

(** Path and query of [url.href], that is [href] without the origin. *)
Definition path_and_query (u : URL) : string :=
  String.append (pathname u) (search u).

Definition href (u : URL) : string :=
  String.append (origin u) (path_and_query u).

End Url.

(* ===================================================================== *)
(** ** Route guard ([middleware.ts])                                       *)
(* ===================================================================== *)

Module RouteGuard.
Import Url.

Definition protectedRoutes : list string := ["/dashboard"; "/dashboard/:path*"].
Definition authRoutes : list string := ["/login"; "/register"].

(** An exception raised while the request is inspected. *)
Inductive Exn := Thrown (what : string).

(** The incoming [NextRequest].  Reading [nextUrl.pathname] and
    [cookies.get(name)?.value] may raise; [url] is the request URL that
    redirect targets are resolved against. *)
Record NextRequest := mkRequest {
  url : URL;
  nextUrl_pathname : Exn + string;
  cookies_get : string -> Exn + option string
}.

Inductive NextResponse :=
| redirect (target : URL)
| next.

Definition matchesProtectedRoute (currentPath : string) : bool :=
  existsb
    (fun pattern =>
       if Js.includes pattern ":path*"
       then let basePath := Js.replace pattern ":path*" "" in
            Js.startsWith currentPath basePath
       else String.eqb pattern currentPath)
    protectedRoutes.

(** The decision taken once path and cookie have been read. *)
Definition classify (request_url : URL) (currentPath : string)
    (accessToken : option string) : NextResponse :=
  let isAuthenticated := Js.truthy accessToken in
  let isProtectedRoute := matchesProtectedRoute currentPath in
  let isAuthRoute := Js.array_includes authRoutes currentPath in
  let dashboardUrl := new_URL "/dashboard" request_url in
  let loginUrl := new_URL "/login" request_url in
  if isAuthenticated then
    if isAuthRoute then redirect dashboardUrl else next
  else
    if isAuthRoute then next
    else if isProtectedRoute
         then redirect (searchParams_set "callbackUrl" currentPath loginUrl)
         else next.

(** The body of the [try] block. *)
Definition try_body (request : NextRequest) : Exn + NextResponse :=
  match nextUrl_pathname request with
  | inl e => inl e
  | inr currentPath =>
      match cookies_get request "accessToken" with
      | inl e => inl e
      | inr accessToken => inr (classify (url request) currentPath accessToken)
      end
  end.

Definition middleware (request : NextRequest) : NextResponse :=
  match try_body request with
  | inr response => response
  | inl _error => redirect (new_URL "/login" (url request))
  end.

(** A request whose accessors do not raise. *)
Definition plain_request (u : URL) (cookies : gmap string string) : NextRequest :=
  {| url := u;
     nextUrl_pathname := inr (pathname u);
     cookies_get := fun name => inr (cookies !! name) |}.

End RouteGuard.


(* ===================================================================== *)
(** ** HTTP client core ([lib/axiosInstance.ts])                           *)
(* ===================================================================== *)

Module Client.

(** *** Credential store *)

(** Options of [setCookie]; [maxAge] is in seconds.  Options that a call
    does not pass are [None]. *)
Record CookieOptions := mkOptions {
  maxAge : Q;
  path : string;
  secure : option bool;
  sameSite : option string
}.

Record Cookie := mkCookie {
  value : string;
  options : CookieOptions
}.

(** *** Requests, responses, errors *)

(** An axios request config; [_retry] is the custom marker the response
    interceptor puts on a config it has already refreshed for. *)
Record Request := mkRequest {
  method : string;
  url : string;
  headers : gmap string string;
  data : option string;
  _retry : bool
}.

(** The part of an error response the code looks at: [error.response.status]
    and [error.response.data?.message]. *)
Record ErrResponse := mkErrResponse {
  status : Z;
  message : option string
}.

(** What the wire answers: a response axios resolves with, or a failure
    (with the error response, or without one when none was received). *)
Inductive Reply (Body : Type) :=
| Replied (body : Body)
| Failed (response : option ErrResponse).
Arguments Replied {Body} body.
Arguments Failed {Body} response.

(** Values a promise of the client rejects with. *)
Inductive Error :=
| AxiosError (config : Request) (response : option ErrResponse)
| TypeError
| ReferenceError.

Inductive Outcome (A : Type) :=
| Fulfilled (a : A)
| Rejected (e : Error).
Arguments Fulfilled {A} a.
Arguments Rejected {A} e.

(** [axios.isAxiosError(err)] *)
Definition isAxiosError (err : Error) : bool :=
  match err with
  | AxiosError _ _ => true
  | _ => false
  end.

(** The backend, as seen from the browser: a state machine answering the
    requests of the intercepted instance ([transport]) and the refresh
    request posted with the bare [axios] ([refresh]).  The body of a refresh
    response is [response.data.data?.accessToken]: [None] when the payload
    object is missing. *)
Record Backend (S Body : Type) := mkBackend {
  transport : S -> Request -> Reply Body * S;
  refresh : S -> Request -> Reply (option string) * S
}.
Arguments mkBackend {S Body} _ _.
Arguments transport {S Body} _ _ _.
Arguments refresh {S Body} _ _ _.

(** [process.env] *)
Record Env := mkEnv {
  NEXT_PUBLIC_API_URL : option string;
  NODE_ENV : option string
}.

Definition BASE_URL (env : Env) : string :=
  Js.or_else (NEXT_PUBLIC_API_URL env) "http://localhost:2775/api/v1".

(** [process.env.NODE_ENV === 'production'] *)
Definition production (env : Env) : bool :=
  match NODE_ENV env with
  | Some v => String.eqb v "production"
  | None => false
  end.

(** *** The world the client runs in *)

Inductive Event :=
| EvDispatch (config : Request)      (* the instance puts a request on the wire *)
| EvRefresh (config : Request)       (* bare axios posts to the refresh endpoint *)
| EvNavigate (href : string)         (* window.location.href = href *)
| EvConsoleError (what : string).    (* console.error *)

(** [window] is [Some pathname] in a browser ([window.location.pathname])
    and [None] where [typeof window === 'undefined'].  [trace] lists the
    observable actions, most recent first. *)
Record World (S : Type) := mkWorld {
  cookies : gmap string Cookie;
  server : S;
  window : option string;
  trace : list Event
}.
Arguments mkWorld {S} _ _ _ _.
Arguments cookies {S} _.
Arguments server {S} _.
Arguments window {S} _.
Arguments trace {S} _.

Section World.
Context {S : Type}.

Definition getCookie (name : string) (w : World S) : option string :=
  match cookies w !! name with
  | Some c => Some (value c)
  | None => None
  end.

Definition setCookie (name val : string) (opts : CookieOptions) (w : World S) : World S :=
  mkWorld (<[name := mkCookie val opts]> (cookies w)) (server w) (window w) (trace w).

Definition log (e : Event) (w : World S) : World S :=
  mkWorld (cookies w) (server w) (window w) (e :: trace w).

Definition set_server (s : S) (w : World S) : World S :=
  mkWorld (cookies w) s (window w) (trace w).

(** [['accessToken', 'refreshToken'].forEach(cookieName =>
      setCookie(cookieName, '', { maxAge: 0, path: '/' }))] *)
Definition clearAuthCookies (w : World S) : World S :=
  fold_left
    (fun w cookieName => setCookie cookieName "" (mkOptions 0 "/" None None) w)
    ["accessToken"; "refreshToken"] w.

End World.

Definition set_header (k v : string) (config : Request) : Request :=
  mkRequest (method config) (url config) (<[k := v]> (headers config))
            (data config) (_retry config).

Definition set_retry (b : bool) (config : Request) : Request :=
  mkRequest (method config) (url config) (headers config) (data config) b.

(** The instance defaults ([headers: {'Content-Type': 'application/json'}])
    merged under the headers of the call; every other property of the
    config, [_retry] included, is carried over. *)
Definition mergeConfig (config : Request) : Request :=
  mkRequest (method config) (url config)
            (headers config ∪ {[ "Content-Type" := "application/json" ]})
            (data config) (_retry config).

Section Instance.
Context {S Body : Type}.
Variable env : Env.
Variable backend : Backend S Body.

(** Request interceptor. *)
Definition requestInterceptor (config : Request) (w : World S) : Request :=
  let token := getCookie "accessToken" w in
  match token with
  | Some t => if Js.truthy token
              then set_header "Authorization" (String.append "Bearer " t) config
              else config
  | None => config
  end.

(** The config of
    [axios.post(`${BASE_URL}/auth/refresh-token`, { refreshToken })]. *)
Definition refreshRequest (refreshToken : option string) : Request :=
  mkRequest "post" (String.append (BASE_URL env) "/auth/refresh-token")
            ∅ refreshToken false.

(** The [catch (refreshError)] block of the response interceptor. *)
Definition onRefreshError (refreshError : Error) (w : World S)
    : Outcome Body * World S :=
  let w := clearAuthCookies w in
  let w :=
    match window w with
    | Some pathname =>
        if negb (Js.includes pathname "/login")
        then log (EvNavigate "/login") w
        else w
    | None => w
    end in
  (Rejected refreshError, w).

(** The rejection handler of the response interceptor.  [instance] is
    [axiosInstance] itself, called for the retry; its promise is returned
    without [await], so a rejection of the retry is not caught by the
    [try] block. *)
Definition onRejected
    (instance : Request -> World S -> option (Outcome Body * World S))
    (error : Error) (w : World S) : option (Outcome Body * World S) :=
  match error with
  | AxiosError originalRequest (Some response) =>
      if (status response =? 401) && negb (_retry originalRequest) then
        let originalRequest := set_retry true originalRequest in
        let refreshToken := getCookie "refreshToken" w in
        let config := refreshRequest refreshToken in
        let (reply, s) := refresh backend (server w) config in
        let w := log (EvRefresh config) (set_server s w) in
        match reply with
        | Replied (Some accessToken) =>
            let w :=
              setCookie "accessToken" accessToken
                (mkOptions (24 * 60 * 60) "/" (Some (production env)) (Some "strict"))
                w in
            let originalRequest :=
              set_header "Authorization" (String.append "Bearer " accessToken)
                         originalRequest in
            instance originalRequest w
        | Replied None => Some (onRefreshError TypeError w)
        | Failed response => Some (onRefreshError (AxiosError config response) w)
        end
      else Some (Rejected error, w)
  | _ => Some (Rejected error, w)
  end.

(** [axiosInstance(config)]: merge the defaults, run the request
    interceptor, put the request on the wire, and hand a failure to the
    response interceptor.  [fuel] bounds the nesting of calls the instance
    makes to itself through the interceptor; [None] means it ran out. *)
Fixpoint axiosInstance (fuel : nat) (config : Request) (w : World S)
    : option (Outcome Body * World S) :=
  match fuel with
  | O => None
  | Datatypes.S fuel' =>
      let config := requestInterceptor (mergeConfig config) w in
      let (reply, s) := transport backend (server w) config in
      let w := log (EvDispatch config) (set_server s w) in
      match reply with
      | Replied body => Some (Fulfilled body, w)
      | Failed response =>
          onRejected (axiosInstance fuel') (AxiosError config response) w
      end
  end.

(** The config that [axiosInstance(config)] puts on the wire in world [w]. *)
Definition onWire (config : Request) (w : World S) : Request :=
  requestInterceptor (mergeConfig config) w.

(** How axios settles a wire reply to [config] when no interceptor steps in. *)
Definition settle (config : Request) (reply : Reply Body) : Outcome Body :=
  match reply with
  | Replied body => Fulfilled body
  | Failed response => Rejected (AxiosError config response)
  end.

(** The world after the refresh call, and the config of that call. *)
Definition refreshConfig (w : World S) : Request :=
  refreshRequest (getCookie "refreshToken" w).

Definition afterRefresh (config : Request) (w : World S) (s1 s2 : S) : World S :=
  log (EvRefresh (refreshConfig w))
    (set_server s2 (log (EvDispatch (onWire config w)) (set_server s1 w))).

(** The config of the retry. *)
Definition retryConfig (config : Request) (w : World S) (accessToken : string)
    : Request :=
  set_header "Authorization" (String.append "Bearer " accessToken)
    (set_retry true (onWire config w)).

(** [axiosInstance.get(url)] and [axiosInstance.post(url, data)] *)
Definition get (fuel : nat) (u : string) : World S -> option (Outcome Body * World S) :=
  axiosInstance fuel (mkRequest "get" u ∅ None false).

Definition post (fuel : nat) (u : string) (body : option string)
    : World S -> option (Outcome Body * World S) :=
  axiosInstance fuel (mkRequest "post" u ∅ body false).

End Instance.

(** *** Observations on traces *)

Definition is_refresh (e : Event) : bool :=
  match e with EvRefresh _ => true | _ => false end.

Definition is_dispatch (e : Event) : bool :=
  match e with EvDispatch _ => true | _ => false end.

Definition count_refresh (l : list Event) : nat := length (List.filter is_refresh l).
Definition count_dispatch (l : list Event) : nat := length (List.filter is_dispatch l).

(** [e] is no dispatch, or the dispatch of a config that is [original] again
    (same method, URL and body) and carries the retry marker. *)
Definition retry_of (original : Request) (e : Event) : Prop :=
  match e with
  | EvDispatch c =>
      method c = method original /\ url c = url original /\
      data c = data original /\ _retry c = true
  | _ => True
  end.

(** Whether the refresh-failure path navigates: there is a [window] and
    its [location.pathname] does not include ["/login"]. *)
Definition navigates {S : Type} (w : World S) : bool :=
  match window w with
  | Some pathname => negb (Js.includes pathname "/login")
  | None => false
  end.

(** The events the refresh-failure path adds. *)
Definition navigation {S : Type} (w : World S) : list Event :=
  if navigates w then [EvNavigate "/login"] else [].

(** The cookie left by [clearAuthCookies]: empty value, max-age 0. *)
Definition clearedCookie : Cookie := mkCookie "" (mkOptions 0 "/" None None).

(** The cookie the refresh path stores a new access token in. *)
Definition refreshedCookie (env : Env) (accessToken : string) : Cookie :=
  mkCookie accessToken
    (mkOptions (24 * 60 * 60) "/" (Some (production env)) (Some "strict")).

End Client.

(* ===================================================================== *)
(** ** Session resolver ([hooks/useAuth.ts])                               *)
(* ===================================================================== *)

Module UseAuth.
Import Client.

Record AuthUser := mkAuthUser {
  id : Z;
  name : string;
  email : string;
  imageUrl : option string;
  role : string;
  phoneNumber : option string;
  enabled : bool;
  authorities : list string
}.

(** [data.data] of the session response. *)
Record SessionData := mkSessionData {
  user : option AuthUser;
  token : string;
  expiresIn : Z
}.

(** The body of [GET /auth/session].  The payload object is optional at run
    time: reading [data.data.user] of a body without it raises. *)
Record SessionResponse := mkSessionResponse {
  status : string;
  message : string;
  data : option SessionData
}.

(** The three [useState] cells of the hook. *)
Record Hook := mkHook {
  hook_user : option AuthUser;
  loading : bool;
  error : option string
}.

Definition initial : Hook := mkHook None true None.

Definition setUser (u : option AuthUser) (h : Hook) : Hook :=
  mkHook u (loading h) (error h).
Definition setLoading (b : bool) (h : Hook) : Hook :=
  mkHook (hook_user h) b (error h).
Definition setError (e : option string) (h : Hook) : Hook :=
  mkHook (hook_user h) (loading h) e.

Section Hook.
Context {S : Type}.
Variable env : Env.

(** The [catch (err)] block of [fetchSession]. *)
Definition fetchSession_catch (err : Error) (h : Hook) : Hook :=
  if isAxiosError err then
    let msg := match err with
               | AxiosError _ (Some response) => Client.message response
               | _ => None
               end in
    setUser None (setError (Some (Js.or_else msg "Failed to fetch session")) h)
  else
    setError (Some "An unexpected error occurred") h.

(** The [try] block of [fetchSession] after the awaited request has
    resolved with [data]; [inl] is an exception raised in the block. *)
Definition fetchSession_try (data : SessionResponse) (w : World S) (h : Hook)
    : Error + World S * Hook :=
  if String.eqb (status data) "SUCCESS" then
    match UseAuth.data data with
    | None => inl TypeError
    | Some d =>
        match user d with
        | Some u =>
            let h := setUser (Some u) h in
            let w :=
              setCookie "accessToken" (token d)
                (mkOptions (inject_Z (expiresIn d) / 1000) "/"
                           (Some (production env)) (Some "strict"))
                w in
            inr (w, setError None h)
        | None => inr (w, setError None h)
        end
    end
  else inr (w, setError None h).

(** What [fetchSession] does once [axiosInstance.get('/auth/session')]
    has settled. *)
Definition fetchSession_settled (outcome : Outcome SessionResponse)
    (w : World S) (h : Hook) : World S * Hook :=
  let (w, h) :=
    match outcome with
    | Fulfilled data =>
        match fetchSession_try data w h with
        | inr wh => wh
        | inl err => (w, fetchSession_catch err h)
        end
    | Rejected err => (w, fetchSession_catch err h)
    end in
  (w, setLoading false h).

Definition fetchSession (backend : Backend S SessionResponse) (fuel : nat)
    (w : World S) (h : Hook) : option (World S * Hook) :=
  match get env backend fuel "/auth/session" w with
  | Some (outcome, w) => Some (fetchSession_settled outcome w h)
  | None => None
  end.

(** What [logout] does once [axiosInstance.post('/auth/logout')] has
    settled.  The promise of [logout] fulfils, unless there is no [window]
    to navigate. *)
Definition logout_settled {Body : Type} (outcome : Outcome Body)
    (w : World S) (h : Hook) : Outcome unit * World S * Hook :=
  let w :=
    match outcome with
    | Fulfilled _ => w
    | Rejected err => log (EvConsoleError "Logout API call failed:") w
    end in
  let w := clearAuthCookies w in
  let h := setUser None h in
  match window w with
  | Some _ => (Fulfilled tt, log (EvNavigate "/login") w, h)
  | None => (Rejected ReferenceError, w, h)
  end.

Definition logout {Body : Type} (backend : Backend S Body) (fuel : nat)
    (w : World S) (h : Hook) : option (Outcome unit * World S * Hook) :=
  match post env backend fuel "/auth/logout" None w with
  | Some (outcome, w) => Some (logout_settled outcome w h)
  | None => None
  end.

(** [!!user && !!getCookie('accessToken')]; a user record is an object
    and so truthy whenever present. *)
Definition isAuthenticated (w : World S) (h : Hook) : bool :=
  match hook_user h with
  | Some _ => Js.truthy (getCookie "accessToken" w)
  | None => false
  end.

(** [user?.authorities?.some(auth => auth.authority === role) ?? false] *)
Definition hasRole (h : Hook) (role : string) : bool :=
  match hook_user h with
  | Some u => existsb (fun authority => String.eqb authority role) (authorities u)
  | None => false
  end.

End Hook.

End UseAuth.

(* ===================================================================== *)
(** ** Login form ([app/(auth)/login/page.tsx], [onSubmit])                *)
(* ===================================================================== *)

Module Login.
Import Client.

(** [response.data.data] of [POST /auth/authenticate]. *)
Record LoginData := mkLoginData {
  accessToken : option string;
  refreshToken : option string
}.

(** [response.data]; destructuring [data] out of it and reading
    [data.accessToken] raises when the payload object is missing. *)
Record LoginResponse := mkLoginResponse {
  data : option LoginData
}.

(** A toast; the emoji that ends the title of the success toast is left
    out of the model. *)
Record Toast := mkToast {
  title : string;
  description : string;
  duration : Z
}.

(** The state of the page that [onSubmit] writes. *)
Record Page := mkPage {
  isSubmitting : bool;
  isRedirecting : bool;
  toasts : list Toast
}.

Definition setIsSubmitting (b : bool) (p : Page) : Page :=
  mkPage b (isRedirecting p) (toasts p).
Definition setIsRedirecting (b : bool) (p : Page) : Page :=
  mkPage (isSubmitting p) b (toasts p).
Definition toast (t : Toast) (p : Page) : Page :=
  mkPage (isSubmitting p) (isRedirecting p) (t :: toasts p).

Section Page.
Context {S : Type}.
Variable env : Env.

(** The options both login cookies are written with. *)
Definition loginOptions (rememberMe : bool) : CookieOptions :=
  mkOptions (if rememberMe then 30 * 24 * 60 * 60 else 24 * 60 * 60) "/"
            (Some (production env)) (Some "strict").

(** The [catch (error: any)] block. *)
Definition onSubmit_catch (error : Error) (p : Page) : Page :=
  let msg := match error with
             | AxiosError _ (Some response) => Client.message response
             | _ => None
             end in
  let errorMessage := Js.or_else msg "An unexpected error occurred" in
  setIsSubmitting false (toast (mkToast "Login Failed" errorMessage 5000) p).

(** The [try] block after the awaited request has resolved. *)
Definition onSubmit_try (response : LoginResponse) (rememberMe : bool)
    (w : World S) (p : Page) : Error + World S * Page :=
  match data response with
  | None => inl TypeError
  | Some d =>
      match accessToken d with
      | Some tok =>
          if Js.truthy (accessToken d) then
            let w := setCookie "accessToken" tok (loginOptions rememberMe) w in
            let w :=
              match refreshToken d with
              | Some rtok =>
                  if Js.truthy (refreshToken d)
                  then setCookie "refreshToken" rtok (loginOptions rememberMe) w
                  else w
              | None => w
              end in
            let p := toast (mkToast "Success! Welcome back!"
                                    "Preparing your dashboard..." 3000) p in
            inr (w, setIsRedirecting true p)
          else inr (w, p)
      | None => inr (w, p)
      end
  end.

Definition onSubmit_settled (outcome : Outcome LoginResponse) (rememberMe : bool)
    (w : World S) (p : Page) : World S * Page :=
  match outcome with
  | Fulfilled response =>
      match onSubmit_try response rememberMe w p with
      | inr wp => wp
      | inl err => (w, onSubmit_catch err p)
      end
  | Rejected err => (w, onSubmit_catch err p)
  end.

(** [credentials] is the serialised [{ email, password, rememberMe }]. *)
Definition onSubmit (backend : Backend S LoginResponse) (fuel : nat)
    (credentials : string) (rememberMe : bool) (w : World S) (p : Page)
    : option (World S * Page) :=
  let p := setIsSubmitting true p in
  match post env backend fuel "/auth/authenticate" (Some credentials) w with
  | Some (outcome, w) => Some (onSubmit_settled outcome rememberMe w p)
  | None => None
  end.

End Page.

End Login.

(* ===================================================================== *)
(** ** Concrete backends and worlds                                        *)
(* ===================================================================== *)

Module Scenario.
Import Client.

Definition env : Env := mkEnv None None.

Definition unauthorized : ErrResponse := mkErrResponse 401 (Some "Unauthorized").

(** A backend that counts the calls it has served.  It accepts the bearer
    token ["fresh"] only, and its refresh endpoint issues that token. *)
Definition expiring : Backend nat string :=
  mkBackend
    (fun n config =>
       (if decide (headers config !! "Authorization" = Some "Bearer fresh")
        then Replied "ok" else Failed (Some unauthorized),
        Datatypes.S n))
    (fun n _ => (Replied (Some "fresh"), Datatypes.S n)).

(** A backend that answers 401 to everything, the refresh call included. *)
Definition revoked : Backend nat string :=
  mkBackend
    (fun n _ => (Failed (Some unauthorized), Datatypes.S n))
    (fun n _ => (Failed (Some unauthorized), Datatypes.S n)).

Definition strict (maxAge : Q) : CookieOptions :=
  mkOptions maxAge "/" (Some false) (Some "strict").

(** A browser on [/dashboard] holding a stale access token and a refresh
    token, both stored by a remember-me login. *)
Definition browser : World nat :=
  mkWorld {[ "accessToken" := mkCookie "stale" (strict 2592000);
             "refreshToken" := mkCookie "r0" (strict 2592000) ]}
          O (Some "/dashboard") [].

Definition products : Request := mkRequest "get" "/products" ∅ None false.

(** *** Session scenarios *)

Definition alice : UseAuth.AuthUser :=
  UseAuth.mkAuthUser 7 "Alice" "alice@shop.example" None "ADMIN" None true ["ADMIN"].

(** The hook after an earlier resolution that found [alice]. *)
Definition signedIn : UseAuth.Hook := UseAuth.mkHook (Some alice) false None.

(** The session endpoint answers every request with [body]. *)
Definition answering {Body : Type} (body : Body) : Backend nat Body :=
  mkBackend
    (fun n _ => (Replied body, Datatypes.S n))
    (fun n _ => (Replied (Some "fresh"), Datatypes.S n)).

(** The session endpoint fails with a 500 and a message. *)
Definition failing {Body : Type} : Backend nat Body :=
  mkBackend
    (fun n _ => (Failed (Some (mkErrResponse 500 (Some "Service unavailable"))),
                 Datatypes.S n))
    (fun n _ => (Replied (Some "fresh"), Datatypes.S n)).

(** Every request is answered 401, and the refresh endpoint answers with a
    body that has no payload object. *)
Definition malformedRefresh {Body : Type} : Backend nat Body :=
  mkBackend
    (fun n _ => (Failed (Some unauthorized), Datatypes.S n))
    (fun n _ => (Replied None, Datatypes.S n)).

Definition notSuccess : UseAuth.SessionResponse :=
  UseAuth.mkSessionResponse "ERROR" "No session" None.


(** *** Login scenarios *)

Definition issued : Login.LoginResponse :=
  Login.mkLoginResponse (Some (Login.mkLoginData (Some "a1") (Some "r1"))).

(** A browser on [/login] with no cookies. *)
Definition visitor : World nat := mkWorld ∅ O (Some "/login") [].

Definition blank : Login.Page := Login.mkPage false false [].

End Scenario.

(* ===================================================================== *)
(** ** Pages that consume the session ([app/page.tsx],
       [app/(dashboard)/layout.tsx])                                       *)
(* ===================================================================== *)

Module Pages.
Import Client UseAuth.

(** [checkToken] of the home page: the path handed to [router.replace]. *)
Definition checkToken {S : Type} (w : World S) : string :=
  let token := getCookie "accessToken" w in
  if Js.truthy token then "/dashboard" else "/login".

(** The first effect of [DashboardLayout]: the path pushed on the router,
    if any. *)
Definition guardEffect {S : Type} (w : World S) (h : Hook) : option string :=
  if negb (loading h) && negb (isAuthenticated w h) then Some "/login" else None.

(** What [DashboardLayout] returns: the spinner, [null], or the shell with
    its header line and, when there is a user, the user menu. *)
Inductive View :=
| Spinner
| Null
| Shell (headline : string) (userNav : option AuthUser).

Definition render {S : Type} (greeting : string) (w : World S) (h : Hook) : View :=
  if loading h then Spinner
  else if negb (isAuthenticated w h) then Null
  else Shell
         (match hook_user h with
          | Some user =>
              String.append greeting (String.append ", " (String.append (name user) "!"))
          | None => greeting
          end)
         (hook_user h).

End Pages.

(* ===================================================================== *)
(** ** The redirect countdown of the login page                            *)
(* ===================================================================== *)

Module Countdown.

(** What the countdown effect does for the current state: arm a timer,
    replace the route, or nothing. *)
Inductive Action :=
| SetTimeout (ms : Z)
| RouterReplace (href : string)
| Idle.

Definition effect (isRedirecting : bool) (countdown : Z) : Action :=
  if isRedirecting && (countdown >? 0) then SetTimeout 1000
  else if isRedirecting && (countdown =? 0) then RouterReplace "/dashboard"
  else Idle.

(** The timer callback, [setCountdown(prev => prev - 1)]. *)
Definition onTimeout (countdown : Z) : Z := countdown - 1.

(** The countdown after [n] timers have fired. *)
Fixpoint afterTimers (n : nat) (countdown : Z) : Z :=
  match n with
  | O => countdown
  | Datatypes.S n' => afterTimers n' (onTimeout countdown)
  end.

(** [useState(3)] *)
Definition initialCountdown : Z := 3.

End Countdown.

(* ===================================================================== *)
(** ** Sidebar navigation ([config/sidebarLinks.ts],
       [components/layouts/SideBar.tsx])                                   *)
(* ===================================================================== *)

Module Sidebar.

Record SubLink := mkSubLink {
  sub_label : string;
  sub_href : string
}.

(** A sidebar entry; its icon is left out. *)
Record SidebarLink := mkLink {
  label : string;
  href : string;
  subLinks : option (list SubLink)
}.

Definition sidebarLinks : list SidebarLink :=
  [ mkLink "Dashboard" "/dashboard" None;
    mkLink "POS" "/dashboard/pos"
      (Some [ mkSubLink "Dashboard" "/dashboard/pos/dashboard";
              mkSubLink "New Sale" "/dashboard/pos/new-sale";
              mkSubLink "Sale History" "/dashboard/pos/sale-history";
              mkSubLink "Report" "/dashboard/pos/report" ]);
    mkLink "Inventory" "/dashboard/inventory"
      (Some [ mkSubLink "Products" "/dashboard/inventory/products";
              mkSubLink "Inventory" "/dashboard/inventory/inventory" ]);
    mkLink "Customers" "/dashboard/customer"
      (Some [ mkSubLink "Customer" "/dashboard/customer/new";
              mkSubLink "Customer List" "/dashboard/customer/list" ]);
    mkLink "Orders" "/dashboard/orders"
      (Some [ mkSubLink "Purchase Orders" "/dashboard/orders/purchase-orders";
              mkSubLink "Orders List" "/dashboard/orders/list";
              mkSubLink "Orders Dashboard" "/dashboard/orders/dashboard" ]);
    mkLink "Suppliers" "/dashboard/suppliers"
      (Some [ mkSubLink "Supplier" "/dashboard/suppliers/new";
              mkSubLink "Supplier List" "/dashboard/suppliers/list" ]) ].

(** [isLinkActive] for the current [pathname]. *)
Definition isLinkActive (pathname : string) (link : SidebarLink) : bool :=
  match subLinks link with
  | Some subs => existsb (fun sub => Js.startsWith pathname (sub_href sub)) subs
  | None => String.eqb pathname (href link)
  end.

(** Every [href] the sidebar renders a [Link] for: the entries without
    sub-links, and the sub-links of the others. *)
Definition linkTargets (link : SidebarLink) : list string :=
  match subLinks link with
  | Some subs => map sub_href subs
  | None => [href link]
  end.

(** The state of [NavigationSection]: the expanded entries, and the set last
    written to [localStorage] under ['sidebar-state'] (the JSON array is kept
    as the set of its elements). *)
Record Navigation := mkNavigation {
  expandedLinks : gset string;
  stored : option (gset string)
}.

Definition toggleExpand (target : string) (nav : Navigation) : Navigation :=
  let next :=
    if decide (target ∈ expandedLinks nav)
    then expandedLinks nav ∖ {[ target ]}
    else expandedLinks nav ∪ {[ target ]} in
  mkNavigation next (Some next).

End Sidebar.

(* ===================================================================== *)
(** ** More concrete backends and responses                                *)
(* ===================================================================== *)

Module Cases.
Import Client.

(** A session response that carries [u] and a token valid for an hour. *)
Definition sessionOf (u : UseAuth.AuthUser) : UseAuth.SessionResponse :=
  UseAuth.mkSessionResponse "SUCCESS" "OK"
    (Some (UseAuth.mkSessionData (Some u) "t1" 3600000)).

(** A login response with an access token and no refresh token. *)
Definition issuedWithoutRefresh : Login.LoginResponse :=
  Login.mkLoginResponse (Some (Login.mkLoginData (Some "a2") None)).

(** A login response whose payload holds no token at all. *)
Definition issuedNothing : Login.LoginResponse :=
  Login.mkLoginResponse (Some (Login.mkLoginData None None)).

(** The login endpoint answers 400 with a message. *)
Definition invalid : Backend nat Login.LoginResponse :=
  mkBackend
    (fun n _ => (Failed (Some (mkErrResponse 400 (Some "Invalid email address"))),
                 Datatypes.S n))
    (fun n _ => (Replied (Some "fresh"), Datatypes.S n)).

(** The login endpoint answers 401 to wrong credentials, and the refresh
    endpoint refuses a request without refresh token. *)
Definition badCredentials : Backend nat Login.LoginResponse :=
  mkBackend
    (fun n _ => (Failed (Some (mkErrResponse 401 (Some "Bad credentials"))),
                 Datatypes.S n))
    (fun n _ => (Failed (Some (mkErrResponse 403 (Some "Refresh token is required"))),
                 Datatypes.S n)).

(** A browser on [/login] that still holds the refresh token of an earlier
    session. *)
Definition returning : World nat :=
  mkWorld {[ "refreshToken" := mkCookie "r0" (Scenario.strict 2592000) ]}
          O (Some "/login") [].


End Cases.

(* ===================================================================== *)
(** * Properties                                                           *)
(* ===================================================================== *)

Module JsFacts.
Import Js.

Lemma truthy_Some_iff (v : option string) :
  truthy v = true <-> exists s, v = Some s /\ s <> EmptyString.
Proof.
  destruct v as [[|c s]|]; simpl; split; intros H; try discriminate.
  - destruct H as [s [Hs Hne]]. inversion Hs; subst. congruence.
  - exists (String c s). split; [reflexivity | discriminate].
  - reflexivity.
  - destruct H as [s [Hs _]]. discriminate.
Qed.

Lemma truthy_Some_nonempty (s : string) :
  s <> EmptyString -> truthy (Some s) = true.
Proof. intros H. apply truthy_Some_iff. exists s. split; [reflexivity | assumption]. Qed.

Lemma or_else_cases (a : option string) (b : string) :
  or_else a b = b \/ (a = Some (or_else a b) /\ or_else a b <> EmptyString).
Proof.
  destruct a as [[|c s]|]; simpl;
    [left; reflexivity | right; split; [reflexivity | discriminate] | left; reflexivity].
Qed.

End JsFacts.

Module RouteGuardFacts.
Import Url RouteGuard.

(** A path under ["/dashboard/"] is none of the auth-only paths. *)
Lemma dashboard_prefix_not_auth (currentPath : string) :
  Js.startsWith currentPath "/dashboard/" = true ->
  Js.array_includes authRoutes currentPath = false.
Proof.
  intros H. unfold Js.array_includes, authRoutes. simpl.
  destruct (String.eqb_spec currentPath "/login") as [-> | _];
    [discriminate H |].
  destruct (String.eqb_spec currentPath "/register") as [-> | _];
    [discriminate H | reflexivity].
Qed.

Lemma dashboard_prefix_protected (currentPath : string) :
  Js.startsWith currentPath "/dashboard/" = true ->
  matchesProtectedRoute currentPath = true.
Proof.
  intros H. unfold matchesProtectedRoute, protectedRoutes.
  cbn [existsb].
  replace (Js.includes "/dashboard/:path*" ":path*") with true by (vm_compute; reflexivity).
  replace (Js.replace "/dashboard/:path*" ":path*" "") with "/dashboard/"
    by (vm_compute; reflexivity).
  rewrite H. apply orb_true_r.
Qed.

(** With a non-empty access token, [classify] redirects away from the
    auth-only paths and lets everything else through. *)
Lemma classify_authenticated (base : URL) (currentPath tok : string) :
  tok <> EmptyString ->
  classify base currentPath (Some tok) =
    if Js.array_includes authRoutes currentPath
    then redirect (new_URL "/dashboard" base) else next.
Proof.
  intros H. unfold classify. rewrite (JsFacts.truthy_Some_nonempty tok H). reflexivity.
Qed.

(** C4 (amended).  The route guard tests the value of the access-token
    cookie for truthiness.  [/dashboard] with no access-token cookie or an
    empty one is redirected to [/login?callbackUrl=%2Fdashboard]; [/login]
    with a non-empty access-token cookie is redirected to [/dashboard];
    [/login] with no cookie or an empty one passes through; every path under
    [/dashboard/] with a non-empty cookie passes through; and an exception
    raised while the request is classified ends in a redirect to [/login]. *)
Theorem middleware_route_guard :
  (forall request accessToken,
      nextUrl_pathname request = inr "/dashboard" ->
      cookies_get request "accessToken" = inr accessToken ->
      Js.truthy accessToken = false ->
      exists target,
        middleware request = redirect target /\
        origin target = origin (url request) /\
        path_and_query target = "/login?callbackUrl=%2Fdashboard") /\
  (forall request tok,
      nextUrl_pathname request = inr "/login" ->
      cookies_get request "accessToken" = inr (Some tok) ->
      tok <> EmptyString ->
      middleware request = redirect (new_URL "/dashboard" (url request)) /\
      path_and_query (new_URL "/dashboard" (url request)) = "/dashboard") /\
  (forall request accessToken,
      nextUrl_pathname request = inr "/login" ->
      cookies_get request "accessToken" = inr accessToken ->
      Js.truthy accessToken = false ->
      middleware request = next) /\
  (forall request currentPath tok,
      nextUrl_pathname request = inr currentPath ->
      Js.startsWith currentPath "/dashboard/" = true ->
      cookies_get request "accessToken" = inr (Some tok) ->
      tok <> EmptyString ->
      middleware request = next) /\
  (forall request e,
      try_body request = inl e ->
      middleware request = redirect (new_URL "/login" (url request)) /\
      path_and_query (new_URL "/login" (url request)) = "/login").
Proof.
  split; [| split; [| split; [| split]]].
  - intros request accessToken Hp Hc Ht.
    exists (searchParams_set "callbackUrl" "/dashboard" (new_URL "/login" (url request))).
    unfold middleware, try_body. rewrite Hp, Hc. unfold classify. rewrite Ht.
    repeat split.
  - intros request tok Hp Hc Htok. unfold middleware, try_body. rewrite Hp, Hc.
    rewrite classify_authenticated by assumption. split; reflexivity.
  - intros request accessToken Hp Hc Ht. unfold middleware, try_body.
    rewrite Hp, Hc. unfold classify. rewrite Ht. reflexivity.
  - intros request currentPath tok Hp Hpre Hc Htok.
    unfold middleware, try_body. rewrite Hp, Hc.
    rewrite classify_authenticated by assumption.
    rewrite (dashboard_prefix_not_auth _ Hpre). reflexivity.
  - intros request e He. unfold middleware. rewrite He. split; reflexivity.
Qed.

(** The cases of [middleware_route_guard] at concrete requests, without a
    cookie, with an empty one and with a token. *)
Lemma middleware_route_guard_witness :
  (exists target,
      middleware (plain_request (mkURL "https://shop.example" "/dashboard" []) ∅)
        = redirect target /\
      path_and_query target = "/login?callbackUrl=%2Fdashboard") /\
  (exists target,
      middleware (plain_request (mkURL "https://shop.example" "/dashboard" [])
                                {[ "accessToken" := "" ]})
        = redirect target /\
      path_and_query target = "/login?callbackUrl=%2Fdashboard") /\
  middleware (plain_request (mkURL "https://shop.example" "/login" [])
                            {[ "accessToken" := "t0" ]})
    = redirect (mkURL "https://shop.example" "/dashboard" []) /\
  middleware (plain_request (mkURL "https://shop.example" "/login" []) ∅) = next /\
  middleware (plain_request (mkURL "https://shop.example" "/login" [])
                            {[ "accessToken" := "" ]}) = next /\
  middleware (plain_request (mkURL "https://shop.example" "/dashboard/pos/new-sale" [])
                            {[ "accessToken" := "t0" ]}) = next /\
  middleware {| url := mkURL "https://shop.example" "/dashboard" [];
                nextUrl_pathname := inl (Thrown "pathname");
                cookies_get := fun _ => inr None |}
    = redirect (mkURL "https://shop.example" "/login" []).
Proof.
  destruct middleware_route_guard as (H1 & H2 & H3 & H4 & H5).
  split; [| split; [| split; [| split; [| split; [| split]]]]].
  - destruct (H1 (plain_request (mkURL "https://shop.example" "/dashboard" []) ∅) None)
      as (target & Ht & _ & Hq); [reflexivity | reflexivity | reflexivity |].
    exists target. split; assumption.
  - destruct (H1 (plain_request (mkURL "https://shop.example" "/dashboard" [])
                                {[ "accessToken" := "" ]}) (Some ""))
      as (target & Ht & _ & Hq); [reflexivity | reflexivity | reflexivity |].
    exists target. split; assumption.
  - refine (proj1 (H2 _ "t0" _ _ _)); [reflexivity | reflexivity | discriminate].
  - apply (H3 _ None); reflexivity.
  - apply (H3 _ (Some "")); reflexivity.
  - apply (H4 _ "/dashboard/pos/new-sale" "t0");
      [reflexivity | reflexivity | reflexivity | discriminate].
  - refine (proj1 (H5 _ (Thrown "pathname") _)). reflexivity.
Defined.

(** C4, as worded, fails where the cookie is present with an empty value
    ([Cookie: accessToken=]): [/login] then passes instead of being redirected
    to [/dashboard], and a path under [/dashboard/] is redirected to [/login]
    instead of passing. *)
Lemma middleware_empty_cookie_is_no_token :
  (plain_request (mkURL "https://shop.example" "/login" []) {[ "accessToken" := "" ]})
    .(cookies_get) "accessToken" = inr (Some "") /\
  middleware (plain_request (mkURL "https://shop.example" "/login" [])
                            {[ "accessToken" := "" ]}) = next /\
  middleware (plain_request (mkURL "https://shop.example" "/dashboard/pos" [])
                            {[ "accessToken" := "" ]})
    = redirect (mkURL "https://shop.example" "/login" [("callbackUrl", "/dashboard/pos")]).
Proof. repeat split. Qed.

End RouteGuardFacts.

Module ClientFacts.
Import Client.

Section Store.
Context {S : Type}.
Implicit Types (w : World S).

Lemma getCookie_log name e w : getCookie name (log e w) = getCookie name w.
Proof. reflexivity. Qed.

Lemma getCookie_set_server name (s : S) w :
  getCookie name (set_server s w) = getCookie name w.
Proof. reflexivity. Qed.

Lemma cookies_setCookie_eq name val opts w :
  cookies (setCookie name val opts w) !! name = Some (mkCookie val opts).
Proof. unfold setCookie. simpl. apply lookup_insert_eq. Qed.

Lemma cookies_setCookie_ne name name' val opts w :
  name <> name' ->
  cookies (setCookie name val opts w) !! name' = cookies w !! name'.
Proof. intros H. unfold setCookie. simpl. by apply lookup_insert_ne. Qed.

Lemma getCookie_setCookie_eq name val opts w :
  getCookie name (setCookie name val opts w) = Some val.
Proof. unfold getCookie. rewrite cookies_setCookie_eq. reflexivity. Qed.

Lemma clearAuthCookies_cookies w :
  cookies (clearAuthCookies w) =
    <["refreshToken" := clearedCookie]> (<["accessToken" := clearedCookie]> (cookies w)).
Proof. reflexivity. Qed.

Lemma clearAuthCookies_access w :
  cookies (clearAuthCookies w) !! "accessToken" = Some clearedCookie.
Proof.
  rewrite clearAuthCookies_cookies.
  rewrite lookup_insert_ne by discriminate. apply lookup_insert_eq.
Qed.

Lemma clearAuthCookies_refresh w :
  cookies (clearAuthCookies w) !! "refreshToken" = Some clearedCookie.
Proof. rewrite clearAuthCookies_cookies. apply lookup_insert_eq. Qed.

Lemma clearAuthCookies_other name w :
  name <> "accessToken" -> name <> "refreshToken" ->
  cookies (clearAuthCookies w) !! name = cookies w !! name.
Proof.
  intros Ha Hr. rewrite clearAuthCookies_cookies.
  rewrite !lookup_insert_ne by congruence. reflexivity.
Qed.

Lemma clearAuthCookies_frame w :
  server (clearAuthCookies w) = server w /\
  window (clearAuthCookies w) = window w /\
  trace (clearAuthCookies w) = trace w.
Proof. repeat split. Qed.

End Store.

Section Instance.
Context {S Body : Type}.
Variable env : Env.
Variable backend : Backend S Body.
Implicit Types (w : World S) (config : Request).

Lemma requestInterceptor_frame config w :
  method (requestInterceptor config w) = method config /\
  url (requestInterceptor config w) = url config /\
  data (requestInterceptor config w) = data config /\
  _retry (requestInterceptor config w) = _retry config.
Proof.
  unfold requestInterceptor.
  destruct (getCookie "accessToken" w) as [t|]; [| repeat split].
  destruct (Js.truthy (Some t)); repeat split.
Qed.

Lemma onWire_frame config w :
  method (onWire config w) = method config /\
  url (onWire config w) = url config /\
  data (onWire config w) = data config /\
  _retry (onWire config w) = _retry config.
Proof. unfold onWire. apply (requestInterceptor_frame (mergeConfig config) w). Qed.

Lemma onWire_retry config w : _retry (onWire config w) = _retry config.
Proof. apply onWire_frame. Qed.

(** The request interceptor attaches the stored access token. *)
Lemma requestInterceptor_bearer config w t :
  getCookie "accessToken" w = Some t -> t <> EmptyString ->
  headers (requestInterceptor config w) !! "Authorization"
    = Some (String.append "Bearer " t).
Proof.
  intros Hc Ht. unfold requestInterceptor. rewrite Hc.
  rewrite (JsFacts.truthy_Some_nonempty t Ht). simpl. apply lookup_insert_eq.
Qed.

(** One step of the instance, as an equation. *)
Lemma axiosInstance_step fuel config w reply s :
  transport backend (server w) (onWire config w) = (reply, s) ->
  axiosInstance env backend (Datatypes.S fuel) config w =
    match reply with
    | Replied body =>
        Some (Fulfilled body, log (EvDispatch (onWire config w)) (set_server s w))
    | Failed response =>
        onRejected env backend (axiosInstance env backend fuel)
          (AxiosError (onWire config w) response)
          (log (EvDispatch (onWire config w)) (set_server s w))
    end.
Proof.
  intros H. cbn [axiosInstance]. fold (onWire config w). rewrite H. reflexivity.
Qed.

(** The handler passes on every error that is not a 401, and every error
    of a config that carries the marker, whatever [instance] is. *)
Lemma onRejected_passes instance originalRequest response w :
  (forall r, response = Some r -> status r <> 401 \/ _retry originalRequest = true) ->
  onRejected env backend instance (AxiosError originalRequest response) w
    = Some (Rejected (AxiosError originalRequest response), w).
Proof.
  intros H. unfold onRejected. destruct response as [r|]; [| reflexivity].
  destruct (H r eq_refl) as [Hs | Hr].
  - apply Z.eqb_neq in Hs. rewrite Hs. reflexivity.
  - rewrite Hr. rewrite andb_false_r. reflexivity.
Qed.

(** A request that carries the marker is dispatched once and settles as
    the wire replied. *)
Lemma axiosInstance_marked fuel config w reply s :
  _retry config = true ->
  transport backend (server w) (onWire config w) = (reply, s) ->
  axiosInstance env backend (Datatypes.S fuel) config w =
    Some (settle (onWire config w) reply,
          log (EvDispatch (onWire config w)) (set_server s w)).
Proof.
  intros Hm Ht. rewrite (axiosInstance_step fuel config w reply s Ht).
  destruct reply as [body | response]; [reflexivity |].
  apply onRejected_passes. intros r _. right. rewrite onWire_retry. exact Hm.
Qed.

(** A failure other than a 401 is passed on. *)
Lemma axiosInstance_not_401 fuel config w response s :
  (forall r, response = Some r -> status r <> 401) ->
  transport backend (server w) (onWire config w) = (Failed response, s) ->
  axiosInstance env backend (Datatypes.S fuel) config w =
    Some (Rejected (AxiosError (onWire config w) response),
          log (EvDispatch (onWire config w)) (set_server s w)).
Proof.
  intros Hn Ht. rewrite (axiosInstance_step fuel config w _ s Ht).
  apply onRejected_passes. intros r Hr. left. exact (Hn r Hr).
Qed.

(** A 401 for a request without the marker: one refresh call, then the
    retry or the refresh-failure path. *)
Lemma axiosInstance_unauthorized fuel config w r s1 rreply s2 :
  _retry config = false ->
  transport backend (server w) (onWire config w) = (Failed (Some r), s1) ->
  status r = 401 ->
  refresh backend s1 (refreshConfig env w) = (rreply, s2) ->
  axiosInstance env backend (Datatypes.S fuel) config w =
    match rreply with
    | Replied (Some accessToken) =>
        axiosInstance env backend fuel (retryConfig config w accessToken)
          (setCookie "accessToken" accessToken
             (options (refreshedCookie env accessToken))
             (afterRefresh env config w s1 s2))
    | Replied None => Some (onRefreshError TypeError (afterRefresh env config w s1 s2))
    | Failed response =>
        Some (onRefreshError (AxiosError (refreshConfig env w) response)
                (afterRefresh env config w s1 s2))
    end.
Proof.
  intros Hm Ht Hs Hr. rewrite (axiosInstance_step fuel config w _ s1 Ht).
  unfold onRejected. rewrite Hs, onWire_retry, Hm. cbn [Z.eqb Pos.eqb negb andb].
  change (getCookie "refreshToken" (log _ (set_server s1 w)))
    with (getCookie "refreshToken" w).
  change (server (log _ (set_server s1 w))) with s1.
  fold (refreshConfig env w). rewrite Hr.
  destruct rreply as [[tok|] | response]; reflexivity.
Qed.

(** The refresh-failure path: both cookies cleared, a navigation to
    [/login] when [navigates], the refresh error rejected. *)
Lemma onRefreshError_spec (refreshError : Error) w :
  onRefreshError (Body := Body) refreshError w =
    (Rejected refreshError,
     mkWorld (cookies (clearAuthCookies w)) (server w) (window w)
             (navigation w ++ trace w)).
Proof.
  unfold onRefreshError, navigation, navigates, clearAuthCookies, setCookie, log.
  cbn [fold_left cookies server window trace].
  destruct (window w) as [pathname|]; [| reflexivity].
  destruct (Js.includes pathname "/login"); reflexivity.
Qed.

Lemma navigation_counts w :
  count_refresh (navigation w) = 0%nat /\ count_dispatch (navigation w) = 0%nat.
Proof. unfold navigation. destruct (navigates w); split; reflexivity. Qed.

Lemma count_refresh_app (l1 l2 : list Event) :
  count_refresh (l1 ++ l2) = (count_refresh l1 + count_refresh l2)%nat.
Proof. unfold count_refresh. rewrite List.filter_app, length_app. reflexivity. Qed.

Lemma count_dispatch_app (l1 l2 : list Event) :
  count_dispatch (l1 ++ l2) = (count_dispatch l1 + count_dispatch l2)%nat.
Proof. unfold count_dispatch. rewrite List.filter_app, length_app. reflexivity. Qed.

Local Ltac settled :=
  split; [reflexivity |]; split; [reflexivity |]; split; [reflexivity |];
  split; [unfold count_refresh; simpl; lia |];
  split; [unfold count_dispatch; simpl; lia | reflexivity].

(** Every run of the instance with fuel for two nested calls settles,
    with at most one refresh call and at most two dispatches, and more
    fuel changes nothing. *)
Lemma axiosInstance_settles fuel config w :
  exists outcome w' new,
    axiosInstance env backend (Datatypes.S (Datatypes.S fuel)) config w
      = Some (outcome, w') /\
    axiosInstance env backend 2 config w = Some (outcome, w') /\
    trace w' = new ++ trace w /\
    (count_refresh new <= 1)%nat /\
    (count_dispatch new <= 2)%nat /\
    window w' = window w.
Proof.
  destruct (transport backend (server w) (onWire config w)) as [reply s1] eqn:Ht.
  destruct reply as [body | [r|]].
  - eexists _, _, [EvDispatch (onWire config w)].
    rewrite !(axiosInstance_step _ config w _ s1 Ht).
    settled.
  - destruct (Z.eq_dec (status r) 401) as [Hs | Hs].
    + destruct (_retry config) eqn:Hm.
      * eexists _, _, [EvDispatch (onWire config w)].
        rewrite !(axiosInstance_marked _ config w _ s1 Hm Ht).
        settled.
      * destruct (refresh backend s1 (refreshConfig env w)) as [rreply s2] eqn:Hr.
        rewrite !(axiosInstance_unauthorized _ config w r s1 rreply s2 Hm Ht Hs Hr).
        destruct rreply as [[tok|] | response].
        -- set (c2 := retryConfig config w tok).
           set (w2 := setCookie _ _ _ _).
           destruct (transport backend (server w2) (onWire c2 w2)) as [reply2 s3] eqn:Ht2.
           assert (Hm2 : _retry c2 = true) by reflexivity.
           eexists _, _, [EvDispatch (onWire c2 w2); EvRefresh (refreshConfig env w);
                          EvDispatch (onWire config w)].
           rewrite !(axiosInstance_marked _ c2 w2 _ s3 Hm2 Ht2).
           settled.
        -- rewrite onRefreshError_spec.
           eexists _, _, (navigation _ ++ [EvRefresh (refreshConfig env w);
                                           EvDispatch (onWire config w)]).
           split; [reflexivity |]. split; [reflexivity |].
           split; [simpl; rewrite <- app_assoc; reflexivity |].
           rewrite count_refresh_app, count_dispatch_app.
           destruct (navigation_counts (afterRefresh env config w s1 s2)) as [-> ->].
           split; [unfold count_refresh; simpl; lia |].
           split; [unfold count_dispatch; simpl; lia | reflexivity].
        -- rewrite onRefreshError_spec.
           eexists _, _, (navigation _ ++ [EvRefresh (refreshConfig env w);
                                           EvDispatch (onWire config w)]).
           split; [reflexivity |]. split; [reflexivity |].
           split; [simpl; rewrite <- app_assoc; reflexivity |].
           rewrite count_refresh_app, count_dispatch_app.
           destruct (navigation_counts (afterRefresh env config w s1 s2)) as [-> ->].
           split; [unfold count_refresh; simpl; lia |].
           split; [unfold count_dispatch; simpl; lia | reflexivity].
    + eexists _, _, [EvDispatch (onWire config w)].
      rewrite !(axiosInstance_not_401 _ config w (Some r) s1) by
        (try exact Ht; intros r' [= <-]; exact Hs).
      settled.
  - eexists _, _, [EvDispatch (onWire config w)].
    rewrite !(axiosInstance_not_401 _ config w None s1) by
      (try exact Ht; intros r' [=]).
    settled.
Qed.

Lemma retryConfig_retry_of config w tok w2 :
  retry_of config (EvDispatch (onWire (retryConfig config w tok) w2)).
Proof.
  destruct (onWire_frame (retryConfig config w tok) w2) as (Hm & Hu & Hd & Hr).
  destruct (onWire_frame config w) as (Hm' & Hu' & Hd' & _).
  unfold retry_of. rewrite Hm, Hu, Hd, Hr. unfold retryConfig. simpl.
  rewrite Hm', Hu', Hd'. repeat split.
Qed.

(** The retried request carries the new token, whether the request
    interceptor re-attaches it from the cookie or leaves the header the
    handler has set. *)
Lemma retry_bearer config w tok w2 :
  getCookie "accessToken" w2 = Some tok ->
  headers (onWire (retryConfig config w tok) w2) !! "Authorization"
    = Some (String.append "Bearer " tok).
Proof.
  intros Hc. unfold onWire, requestInterceptor. rewrite Hc.
  destruct (Js.truthy (Some tok)).
  - simpl. apply lookup_insert_eq.
  - unfold mergeConfig, retryConfig. simpl.
    apply lookup_union_Some_l. apply lookup_insert_eq.
Qed.




(** C1.  A 401 for a request that does not carry the retry marker leads
    to exactly one refresh call and at most one further dispatch, which is
    the original request again, now marked; a 401 for a request that
    carries the marker leads to no refresh call: the handler rejects with
    the very error it was given and leaves the world as it was. *)
Theorem unauthorized_refreshes_once fuel config w r s1 :
  (2 <= fuel)%nat ->
  transport backend (server w) (onWire config w) = (Failed (Some r), s1) ->
  status r = 401 ->
  (_retry config = false ->
   exists outcome w' new,
     axiosInstance env backend fuel config w = Some (outcome, w') /\
     trace w' = new ++ EvDispatch (onWire config w) :: trace w /\
     count_refresh new = 1%nat /\
     (count_dispatch new <= 1)%nat /\
     Forall (retry_of config) new) /\
  (_retry config = true ->
   axiosInstance env backend fuel config w =
     Some (Rejected (AxiosError (onWire config w) (Some r)),
           log (EvDispatch (onWire config w)) (set_server s1 w)) /\
   forall instance w0,
     onRejected env backend instance (AxiosError (onWire config w) (Some r)) w0
       = Some (Rejected (AxiosError (onWire config w) (Some r)), w0)).
Proof.
  intros Hfuel Ht Hs. destruct fuel as [|[|fuel]]; [lia | lia |]. split; intros Hm.
  - destruct (refresh backend s1 (refreshConfig env w)) as [rreply s2] eqn:Hr.
    rewrite (axiosInstance_unauthorized _ config w r s1 rreply s2 Hm Ht Hs Hr).
    destruct rreply as [[tok|] | response].
    + set (c2 := retryConfig config w tok).
      set (w2 := setCookie _ _ _ _).
      destruct (transport backend (server w2) (onWire c2 w2)) as [reply2 s3] eqn:Ht2.
      rewrite (axiosInstance_marked _ c2 w2 _ s3 eq_refl Ht2).
      eexists _, _, [EvDispatch (onWire c2 w2); EvRefresh (refreshConfig env w)].
      split; [reflexivity |]. split; [reflexivity |].
      split; [reflexivity |]. split; [unfold count_dispatch; simpl; lia |].
      constructor; [apply retryConfig_retry_of | repeat constructor].
    + rewrite onRefreshError_spec.
      eexists _, _, (navigation _ ++ [EvRefresh (refreshConfig env w)]).
      split; [reflexivity |].
      split; [simpl; rewrite <- app_assoc; reflexivity |].
      rewrite count_refresh_app, count_dispatch_app.
      destruct (navigation_counts (afterRefresh env config w s1 s2)) as [-> ->].
      split; [reflexivity |]. split; [unfold count_dispatch; simpl; lia |].
      apply Forall_app. split; [| repeat constructor].
      unfold navigation. destruct (navigates _); repeat constructor.
    + rewrite onRefreshError_spec.
      eexists _, _, (navigation _ ++ [EvRefresh (refreshConfig env w)]).
      split; [reflexivity |].
      split; [simpl; rewrite <- app_assoc; reflexivity |].
      rewrite count_refresh_app, count_dispatch_app.
      destruct (navigation_counts (afterRefresh env config w s1 s2)) as [-> ->].
      split; [reflexivity |]. split; [unfold count_dispatch; simpl; lia |].
      apply Forall_app. split; [| repeat constructor].
      unfold navigation. destruct (navigates _); repeat constructor.
  - split.
    + rewrite (axiosInstance_marked _ config w _ s1 Hm Ht). reflexivity.
    + intros instance w0. apply onRejected_passes.
      intros r' _. right. rewrite onWire_retry. exact Hm.
Qed.

(** C2.  When the refresh call issues a new token after a 401, the
    original request is dispatched once more, marked and with the new
    token as its bearer credential; however the wire replies to it is how
    the call settles; afterwards the [accessToken] cookie holds the new
    token and every other cookie, [refreshToken] included, is as before. *)
Theorem refresh_success_retries_with_new_token
    fuel config w r s1 tok s2 reply2 s3 :
  (2 <= fuel)%nat ->
  _retry config = false ->
  transport backend (server w) (onWire config w) = (Failed (Some r), s1) ->
  status r = 401 ->
  refresh backend s1 (refreshConfig env w) = (Replied (Some tok), s2) ->
  let w2 := setCookie "accessToken" tok (options (refreshedCookie env tok))
                      (afterRefresh env config w s1 s2) in
  let c2 := onWire (retryConfig config w tok) w2 in
  transport backend s2 c2 = (reply2, s3) ->
  exists w',
    axiosInstance env backend fuel config w = Some (settle c2 reply2, w') /\
    cookies w' !! "accessToken" = Some (refreshedCookie env tok) /\
    value (refreshedCookie env tok) = tok /\
    cookies w' !! "refreshToken" = cookies w !! "refreshToken" /\
    (forall name, name <> "accessToken" -> cookies w' !! name = cookies w !! name) /\
    headers c2 !! "Authorization" = Some (String.append "Bearer " tok) /\
    retry_of config (EvDispatch c2) /\
    trace w' = [EvDispatch c2; EvRefresh (refreshConfig env w);
                EvDispatch (onWire config w)] ++ trace w.
Proof.
  intros Hfuel Hm Ht Hs Hr w2 c2 Ht2.
  destruct fuel as [|[|fuel]]; [lia | lia |].
  rewrite (axiosInstance_unauthorized _ config w r s1 _ s2 Hm Ht Hs Hr).
  fold w2.
  rewrite (axiosInstance_marked _ (retryConfig config w tok) w2 reply2 s3 eq_refl Ht2).
  fold c2. eexists. split; [reflexivity |].
  split; [apply cookies_setCookie_eq |]. split; [reflexivity |].
  split; [apply (cookies_setCookie_ne _ _ _ _ (afterRefresh env config w s1 s2));
          discriminate |].
  split; [intros name Hn;
          apply (cookies_setCookie_ne _ _ _ _ (afterRefresh env config w s1 s2));
          congruence |].
  split; [apply retry_bearer, getCookie_setCookie_eq |].
  split; [apply retryConfig_retry_of | reflexivity].
Qed.


(** C10.  The refresh call does not go through the instance: its config
    has no bearer header and no marker, and when it fails - with a 401 or
    otherwise - the call rejects with that failure after one refresh call
    and no further dispatch.  With the marker set before the refresh, every
    call of the instance settles, given fuel for two nested calls, after at
    most one refresh call and at most two dispatches, and more fuel changes
    nothing. *)
Theorem interceptor_terminates fuel config w :
  (2 <= fuel)%nat ->
  (exists outcome w' new,
      axiosInstance env backend fuel config w = Some (outcome, w') /\
      axiosInstance env backend 2 config w = Some (outcome, w') /\
      trace w' = new ++ trace w /\
      (count_refresh new <= 1)%nat /\
      (count_dispatch new <= 2)%nat) /\
  headers (refreshConfig env w) !! "Authorization" = None /\
  _retry (refreshConfig env w) = false /\
  (forall r s1 response s2,
      _retry config = false ->
      transport backend (server w) (onWire config w) = (Failed (Some r), s1) ->
      status r = 401 ->
      refresh backend s1 (refreshConfig env w) = (Failed response, s2) ->
      exists w',
        axiosInstance env backend fuel config w
          = Some (Rejected (AxiosError (refreshConfig env w) response), w') /\
        trace w' = navigation w ++ [EvRefresh (refreshConfig env w);
                                    EvDispatch (onWire config w)] ++ trace w).
Proof.
  intros Hfuel. destruct fuel as [|[|fuel]]; [lia | lia |].
  split.
  { destruct (axiosInstance_settles fuel config w)
      as (outcome & w' & new & H1 & H2 & H3 & H4 & H5 & _).
    exists outcome, w', new. repeat split; assumption. }
  split; [apply lookup_empty |]. split; [reflexivity |].
  intros r s1 response s2 Hm Ht Hs Hr.
  rewrite (axiosInstance_unauthorized _ config w r s1 _ s2 Hm Ht Hs Hr).
  rewrite onRefreshError_spec. eexists. split; reflexivity.
Qed.

End Instance.

Import Scenario.

(** [unauthorized_refreshes_once] on the expiring backend (no marker) and on
    the revoked backend (marker set). *)
Lemma unauthorized_refreshes_once_witness :
  (exists outcome w' new,
      axiosInstance env expiring 2 products browser = Some (outcome, w') /\
      trace w' = new ++ EvDispatch (onWire products browser) :: trace browser /\
      count_refresh new = 1%nat /\
      (count_dispatch new <= 1)%nat /\
      Forall (retry_of products) new) /\
  axiosInstance env revoked 2 (set_retry true products) browser =
    Some (Rejected (AxiosError (onWire (set_retry true products) browser)
                               (Some unauthorized)),
          log (EvDispatch (onWire (set_retry true products) browser))
              (set_server 1%nat browser)).
Proof.
  split.
  - refine (proj1 (unauthorized_refreshes_once env expiring 2 products browser
                     unauthorized 1%nat _ _ _) _);
      [lia | vm_compute; reflexivity | reflexivity | reflexivity].
  - refine (proj1 (proj2 (unauthorized_refreshes_once env revoked 2
                            (set_retry true products) browser
                            unauthorized 1%nat _ _ _) _));
      [lia | vm_compute; reflexivity | reflexivity | reflexivity].
Defined.

(** [refresh_success_retries_with_new_token] on the expiring backend: the
    retry carries ["Bearer fresh"] and fulfils. *)
Lemma refresh_success_retries_with_new_token_witness :
  exists w',
    axiosInstance env expiring 2 products browser = Some (Fulfilled "ok", w') /\
    cookies w' !! "accessToken" = Some (refreshedCookie env "fresh") /\
    cookies w' !! "refreshToken" = Some (mkCookie "r0" (strict 2592000)) /\
    count_dispatch (trace w') = 2%nat /\
    count_refresh (trace w') = 1%nat.
Proof.
  destruct (refresh_success_retries_with_new_token env expiring 2 products browser
              unauthorized 1%nat "fresh" 2%nat (Replied "ok") 3%nat)
    as (w' & Hrun & Hacc & _ & Href & _ & _ & _ & Htrace);
    [lia | reflexivity | vm_compute; reflexivity | reflexivity
     | vm_compute; reflexivity | vm_compute; reflexivity |].
  exists w'. split; [exact Hrun |]. split; [exact Hacc |].
  split; [rewrite Href; vm_compute; reflexivity |].
  rewrite Htrace. split; reflexivity.
Defined.


(** [interceptor_terminates] on the revoked backend with more fuel than
    needed. *)
Lemma interceptor_terminates_witness :
  exists outcome w' new,
    axiosInstance env revoked 5 products browser = Some (outcome, w') /\
    axiosInstance env revoked 2 products browser = Some (outcome, w') /\
    trace w' = new ++ trace browser /\
    (count_refresh new <= 1)%nat /\
    (count_dispatch new <= 2)%nat.
Proof.
  refine (proj1 (interceptor_terminates env revoked 5 products browser _)). lia.
Defined.


End ClientFacts.

Module ClientFrame.
Import Client.

Section Instance.
Context {S Body : Type}.
Variable env : Env.
Variable backend : Backend S Body.
Implicit Types (w : World S) (config : Request).

(** What a run of the instance does to the world, by induction on the fuel:
    it leaves the [window] field and every cookie but the two token cookies
    alone, it extends the trace, first of all by the dispatch of the request,
    and every navigation it adds is one to [/login]. *)
Lemma axiosInstance_frame fuel : forall config w outcome w',
  axiosInstance env backend fuel config w = Some (outcome, w') ->
  window w' = window w /\
  (forall name, name <> "accessToken" -> name <> "refreshToken" ->
                cookies w' !! name = cookies w !! name) /\
  exists new,
    trace w' = new ++ EvDispatch (onWire config w) :: trace w /\
    forall target, In (EvNavigate target) new -> target = "/login".
Proof.
  induction fuel as [|fuel IH]; intros config w outcome w' Hrun; [discriminate |].
  destruct (transport backend (server w) (onWire config w)) as [reply s1] eqn:Ht.
  rewrite (ClientFacts.axiosInstance_step env backend fuel config w reply s1 Ht) in Hrun.
  destruct reply as [body | response].
  - injection Hrun as <- <-. repeat split. exists []. split; [reflexivity | intros ? []].
  - destruct response as [r|].
    2:{ injection Hrun as <- <-. repeat split. exists [].
        split; [reflexivity | intros ? []]. }
    unfold onRejected in Hrun.
    destruct ((status r =? 401) && negb (_retry (onWire config w))).
    2:{ injection Hrun as <- <-. repeat split. exists [].
        split; [reflexivity | intros ? []]. }
    cbn [server log set_server] in Hrun.
    destruct (refresh backend s1 _) as [rreply s2].
    destruct rreply as [[tok|] | response].
    + apply IH in Hrun. destruct Hrun as (Hw & Hc & new & Hnew & Hnav).
      split; [exact Hw |]. split.
      * intros name Ha Hr. rewrite (Hc name Ha Hr).
        cbn [cookies setCookie log set_server]. by apply lookup_insert_ne.
      * eexists (new ++ [_; _]). split.
        -- rewrite Hnew, <- app_assoc. reflexivity.
        -- intros target Hin. apply in_app_or in Hin.
           destruct Hin as [Hin | [Hin | [Hin | []]]];
             [exact (Hnav target Hin) | discriminate Hin | discriminate Hin].
    + rewrite ClientFacts.onRefreshError_spec in Hrun. injection Hrun as <- <-.
      split; [reflexivity |]. split.
      * intros name Ha Hr. cbn [cookies]. by apply ClientFacts.clearAuthCookies_other.
      * eexists (navigation _ ++ [_]). cbn [trace log set_server]. split.
        -- rewrite <- app_assoc. reflexivity.
        -- intros target Hin. apply in_app_or in Hin.
           destruct Hin as [Hin | [Hin | []]]; [| discriminate Hin].
           unfold navigation in Hin. destruct (navigates _); [| destruct Hin].
           destruct Hin as [[= <-] | []]. reflexivity.
    + rewrite ClientFacts.onRefreshError_spec in Hrun. injection Hrun as <- <-.
      split; [reflexivity |]. split.
      * intros name Ha Hr. cbn [cookies]. by apply ClientFacts.clearAuthCookies_other.
      * eexists (navigation _ ++ [_]). cbn [trace log set_server]. split.
        -- rewrite <- app_assoc. reflexivity.
        -- intros target Hin. apply in_app_or in Hin.
           destruct Hin as [Hin | [Hin | []]]; [| discriminate Hin].
           unfold navigation in Hin. destruct (navigates _); [| destruct Hin].
           destruct Hin as [[= <-] | []]. reflexivity.
Qed.

End Instance.

End ClientFrame.

Module UseAuthFacts.
Import Client UseAuth.

Section Hook.
Context {S : Type}.
Variable env : Env.
Implicit Types (w : World S) (h : Hook).

(** With fuel for two nested calls the session request settles, and
    [fetchSession] continues from its settlement. *)
Lemma fetchSession_settles (backend : Backend S SessionResponse) fuel w h :
  (2 <= fuel)%nat ->
  exists outcome w1,
    get env backend fuel "/auth/session" w = Some (outcome, w1) /\
    fetchSession env backend fuel w h = Some (fetchSession_settled env outcome w1 h).
Proof.
  intros Hfuel. destruct fuel as [|[|fuel]]; [lia | lia |].
  unfold fetchSession, get.
  destruct (ClientFacts.axiosInstance_settles env backend fuel
              (mkRequest "get" "/auth/session" ∅ None false) w)
    as (outcome & w1 & _ & -> & _).
  exists outcome, w1. split; reflexivity.
Qed.

Lemma logout_settles {Body : Type} (backend : Backend S Body) fuel w h :
  (2 <= fuel)%nat ->
  exists outcome w1,
    post env backend fuel "/auth/logout" None w = Some (outcome, w1) /\
    window w1 = window w /\
    logout env backend fuel w h = Some (logout_settled outcome w1 h).
Proof.
  intros Hfuel. destruct fuel as [|[|fuel]]; [lia | lia |].
  unfold logout, post.
  destruct (ClientFacts.axiosInstance_settles env backend fuel
              (mkRequest "post" "/auth/logout" ∅ None false) w)
    as (outcome & w1 & new & -> & _ & _ & _ & _ & Hw).
  exists outcome, w1. repeat split. exact Hw.
Qed.

Lemma isAuthenticated_true w h :
  isAuthenticated w h = true <->
  (exists u, hook_user h = Some u) /\
  (exists c, cookies w !! "accessToken" = Some c /\ value c <> EmptyString).
Proof.
  unfold isAuthenticated, getCookie.
  destruct (hook_user h) as [u|].
  - destruct (cookies w !! "accessToken") as [c|].
    + rewrite JsFacts.truthy_Some_iff. split.
      * intros (v & [= <-] & Hv). split; [exists u; reflexivity |].
        exists c. split; [reflexivity | exact Hv].
      * intros (_ & c' & [= <-] & Hc). exists (value c). split; [reflexivity | exact Hc].
    + simpl. split; [discriminate |]. intros (_ & c & Hc & _). discriminate.
  - split; [discriminate |]. intros ((u & Hu) & _). discriminate.
Qed.

(** C5.  [isAuthenticated] is true exactly when the hook holds a user and
    the [accessToken] cookie exists with a non-empty value; without a
    user, without the cookie, or with the cookie cleared it is false. *)
Theorem isAuthenticated_iff w h :
  (isAuthenticated w h = true <->
   (exists u, hook_user h = Some u) /\
   (exists c, cookies w !! "accessToken" = Some c /\ value c <> EmptyString)) /\
  isAuthenticated w (setUser None h) = false /\
  (cookies w !! "accessToken" = None -> isAuthenticated w h = false) /\
  isAuthenticated (clearAuthCookies w) h = false.
Proof.
  split; [apply isAuthenticated_true |]. split; [reflexivity |]. split.
  - intros Hc. unfold isAuthenticated, getCookie. rewrite Hc.
    destruct (hook_user h); reflexivity.
  - unfold isAuthenticated, getCookie.
    rewrite ClientFacts.clearAuthCookies_access.
    destruct (hook_user h); reflexivity.
Qed.


(** An exception inside the [try] block - a SUCCESS body without payload
    object - ends in the generic error as well, the user left as it was. *)
Lemma fetchSession_settled_malformed (body : SessionResponse) w h :
  status body = "SUCCESS" -> data body = None ->
  fetchSession_settled env (Fulfilled body) w h =
    (w, setLoading false (setError (Some "An unexpected error occurred") h)).
Proof.
  intros Hs Hd. unfold fetchSession_settled, fetchSession_try. rewrite Hs, Hd.
  reflexivity.
Qed.


(** C8 (amended).  When the session request resolves with a body whose
    status is not ["SUCCESS"], or whose payload holds no user, the resolver
    sets the error to null, stops loading and leaves both the world and the
    user record as they were; in particular a user that was absent stays
    absent. *)
Theorem fetchSession_other_shape
    (backend : Backend S SessionResponse) fuel w h body w1 :
  get env backend fuel "/auth/session" w = Some (Fulfilled body, w1) ->
  (status body <> "SUCCESS" \/ exists d, data body = Some d /\ user d = None) ->
  exists h',
    fetchSession env backend fuel w h = Some (w1, h') /\
    error h' = None /\
    loading h' = false /\
    hook_user h' = hook_user h /\
    (hook_user h = None -> hook_user h' = None).
Proof.
  intros Hget Hshape. unfold fetchSession. rewrite Hget.
  unfold fetchSession_settled, fetchSession_try.
  destruct Hshape as [Hs | (d & Hd & Hu)].
  - apply String.eqb_neq in Hs. rewrite Hs.
    eexists. split; [reflexivity |]. repeat split. intros H; exact H.
  - rewrite Hd, Hu. destruct (String.eqb (status body) "SUCCESS");
      (eexists; split; [reflexivity |]; repeat split; intros H; exact H).
Qed.


End Hook.

Import Scenario.

(** [isAuthenticated_iff] for [alice] in the browser that holds a token. *)
Lemma isAuthenticated_iff_witness :
  isAuthenticated browser signedIn = true /\
  isAuthenticated visitor signedIn = false /\
  isAuthenticated browser (setUser None signedIn) = false.
Proof.
  destruct (isAuthenticated_iff browser signedIn) as (H1 & H2 & _).
  destruct (isAuthenticated_iff visitor signedIn) as (_ & _ & H3 & _).
  split; [| split; [apply H3; reflexivity | exact H2]].
  apply H1. split; [exists alice; reflexivity |].
  exists (mkCookie "stale" (strict 2592000)).
  split; [vm_compute; reflexivity | discriminate].
Defined.



(** C8, as stated, fails: a re-check that resolves with a body that is not
    a success leaves the user found earlier in memory. *)
Lemma fetchSession_other_shape_keeps_user :
  exists w' h',
    fetchSession env (answering notSuccess) 2 browser signedIn = Some (w', h') /\
    error h' = None /\
    hook_user h' = Some alice.
Proof. eexists _, _. repeat split; vm_compute; reflexivity. Qed.

(** [fetchSession_other_shape] on the first resolution of a visitor. *)
Lemma fetchSession_other_shape_witness :
  exists w' h',
    fetchSession env (answering notSuccess) 2 visitor initial = Some (w', h') /\
    error h' = None /\ loading h' = false /\ hook_user h' = None.
Proof.
  destruct (fetchSession_other_shape env (answering notSuccess) 2 visitor initial
              notSuccess
              (log (EvDispatch (onWire (mkRequest "get" "/auth/session" ∅ None false)
                                       visitor))
                   (set_server 1%nat visitor)))
    as (h' & Hrun & He & Hl & _ & Hu);
    [vm_compute; reflexivity | left; discriminate |].
  eexists _, h'. split; [exact Hrun |]. split; [exact He |].
  split; [exact Hl | apply Hu; reflexivity].
Defined.


End UseAuthFacts.

Module LoginFacts.
Import Client Login.

(** With fuel for two nested calls the login request settles, and
    [onSubmit] continues from its settlement. *)
Lemma onSubmit_settles {S : Type} env (backend : Backend S LoginResponse)
    fuel credentials rememberMe (w : World S) p :
  (2 <= fuel)%nat ->
  exists outcome w1,
    post env backend fuel "/auth/authenticate" (Some credentials) w
      = Some (outcome, w1) /\
    onSubmit env backend fuel credentials rememberMe w p =
      Some (onSubmit_settled env outcome rememberMe w1 (setIsSubmitting true p)).
Proof.
  intros Hfuel. destruct fuel as [|[|fuel]]; [lia | lia |].
  unfold onSubmit, post.
  destruct (ClientFacts.axiosInstance_settles env backend fuel
              (mkRequest "post" "/auth/authenticate" ∅ (Some credentials) false) w)
    as (outcome & w1 & _ & -> & _).
  exists outcome, w1. split; reflexivity.
Qed.

Lemma loginOptions_maxAge env rememberMe :
  maxAge (loginOptions env rememberMe) = (if rememberMe then 2592000 else 86400)%Q.
Proof. destruct rememberMe; reflexivity. Qed.

(** After a login that issued a non-empty access token, the [accessToken]
    cookie holds it under the login options. *)
Lemma onSubmit_try_access {S : Type} env d tok rememberMe (w : World S) p :
  accessToken d = Some tok -> tok <> EmptyString ->
  exists w' p',
    onSubmit_try env (mkLoginResponse (Some d)) rememberMe w p = inr (w', p') /\
    cookies w' !! "accessToken" = Some (mkCookie tok (loginOptions env rememberMe)).
Proof.
  intros Hd Ht. unfold onSubmit_try. simpl. rewrite Hd.
  rewrite (JsFacts.truthy_Some_nonempty tok Ht).
  eexists _, _. split; [reflexivity |].
  destruct (refreshToken d) as [rtok|].
  - destruct (Js.truthy (Some rtok)).
    + rewrite ClientFacts.cookies_setCookie_ne by discriminate.
      apply ClientFacts.cookies_setCookie_eq.
    + apply ClientFacts.cookies_setCookie_eq.
  - apply ClientFacts.cookies_setCookie_eq.
Qed.

(** C7.  A login that issues an access token stores it with max-age 86400
    seconds without remember-me and 2592000 seconds with it; a token issued
    by the refresh path is stored with max-age 86400 seconds, whatever
    cookies the world held before. *)
Theorem token_lifetimes :
  (forall (S : Type) env (backend : Backend S LoginResponse)
          fuel credentials rememberMe (w : World S) p d tok w1,
      post env backend fuel "/auth/authenticate" (Some credentials) w
        = Some (Fulfilled (mkLoginResponse (Some d)), w1) ->
      accessToken d = Some tok ->
      tok <> EmptyString ->
      exists w' p' opts,
        onSubmit env backend fuel credentials rememberMe w p = Some (w', p') /\
        cookies w' !! "accessToken" = Some (mkCookie tok opts) /\
        maxAge opts = (if rememberMe then 2592000 else 86400)%Q) /\
  (forall (S Body : Type) env (backend : Backend S Body)
          fuel config (w : World S) r s1 tok s2,
      (2 <= fuel)%nat ->
      _retry config = false ->
      transport backend (server w) (onWire config w) = (Failed (Some r), s1) ->
      status r = 401 ->
      refresh backend s1 (refreshConfig env w) = (Replied (Some tok), s2) ->
      exists outcome w' opts,
        axiosInstance env backend fuel config w = Some (outcome, w') /\
        cookies w' !! "accessToken" = Some (mkCookie tok opts) /\
        maxAge opts = 86400%Q).
Proof.
  split.
  - intros S env backend fuel credentials rememberMe w p d tok w1 Hpost Hd Ht.
    unfold onSubmit. rewrite Hpost. unfold onSubmit_settled.
    destruct (onSubmit_try_access env d tok rememberMe w1 (setIsSubmitting true p) Hd Ht)
      as (w' & p' & -> & Hc).
    exists w', p', (loginOptions env rememberMe).
    split; [reflexivity |]. split; [exact Hc | apply loginOptions_maxAge].
  - intros S Body env backend fuel config w r s1 tok s2 Hfuel Hm Ht Hs Hr.
    destruct fuel as [|[|fuel]]; [lia | lia |].
    rewrite (ClientFacts.axiosInstance_unauthorized env backend _ config w r s1 _ s2
               Hm Ht Hs Hr).
    set (c2 := retryConfig config w tok).
    set (w2 := setCookie _ _ _ _).
    destruct (transport backend (server w2) (onWire c2 w2)) as [reply2 s3] eqn:Ht2.
    rewrite (ClientFacts.axiosInstance_marked env backend _ c2 w2 _ s3 eq_refl Ht2).
    eexists _, _, (options (refreshedCookie env tok)).
    split; [reflexivity |].
    split; [apply (ClientFacts.cookies_setCookie_eq "accessToken" tok _
                     (afterRefresh env config w s1 s2)) | reflexivity].
Qed.

Import Scenario.

(** [token_lifetimes] at a login without and with remember-me, and at a
    refresh in a browser whose cookies come from a remember-me login. *)
Lemma token_lifetimes_witness :
  (exists w' p' opts,
      onSubmit env (answering issued) 2 "credentials" false visitor blank
        = Some (w', p') /\
      cookies w' !! "accessToken" = Some (mkCookie "a1" opts) /\
      maxAge opts = 86400%Q) /\
  (exists w' p' opts,
      onSubmit env (answering issued) 2 "credentials" true visitor blank
        = Some (w', p') /\
      cookies w' !! "accessToken" = Some (mkCookie "a1" opts) /\
      maxAge opts = 2592000%Q) /\
  (exists outcome w' opts,
      axiosInstance env expiring 2 products browser = Some (outcome, w') /\
      cookies w' !! "accessToken" = Some (mkCookie "fresh" opts) /\
      maxAge opts = 86400%Q).
Proof.
  destruct token_lifetimes as [Hlogin Hrefresh].
  split; [| split].
  - refine (Hlogin nat env (answering issued) 2%nat "credentials" false visitor blank
              (mkLoginData (Some "a1") (Some "r1")) "a1"
              (log (EvDispatch (onWire (mkRequest "post" "/auth/authenticate" ∅
                                                  (Some "credentials") false) visitor))
                   (set_server 1%nat visitor)) _ _ _);
      [vm_compute; reflexivity | reflexivity | discriminate].
  - refine (Hlogin nat env (answering issued) 2%nat "credentials" true visitor blank
              (mkLoginData (Some "a1") (Some "r1")) "a1"
              (log (EvDispatch (onWire (mkRequest "post" "/auth/authenticate" ∅
                                                  (Some "credentials") false) visitor))
                   (set_server 1%nat visitor)) _ _ _);
      [vm_compute; reflexivity | reflexivity | discriminate].
  - refine (Hrefresh nat string env expiring 2%nat products browser unauthorized 1%nat
              "fresh" 2%nat _ _ _ _ _);
      [lia | reflexivity | vm_compute; reflexivity | reflexivity
       | vm_compute; reflexivity].
Defined.

End LoginFacts.


(* ===================================================================== *)
(** * Further properties                                                   *)
(* ===================================================================== *)

Module RouteGuardMore.
Import Url RouteGuard.

(** The two patterns amount to: the path is [/dashboard], or it starts with
    [/dashboard/]. *)
Lemma matchesProtectedRoute_spec (currentPath : string) :
  matchesProtectedRoute currentPath =
    String.eqb currentPath "/dashboard" || Js.startsWith currentPath "/dashboard/".
Proof.
  unfold matchesProtectedRoute, protectedRoutes. cbn [existsb].
  replace (Js.includes "/dashboard" ":path*") with false by (vm_compute; reflexivity).
  replace (Js.includes "/dashboard/:path*" ":path*") with true by (vm_compute; reflexivity).
  replace (Js.replace "/dashboard/:path*" ":path*" "") with "/dashboard/"
    by (vm_compute; reflexivity).
  rewrite orb_false_r, (String.eqb_sym "/dashboard" currentPath). reflexivity.
Qed.

Lemma auth_route_spec (currentPath : string) :
  Js.array_includes authRoutes currentPath =
    String.eqb currentPath "/login" || String.eqb currentPath "/register".
Proof. unfold Js.array_includes, authRoutes. simpl. rewrite orb_false_r. reflexivity. Qed.

(** No auth-only path is a protected path. *)
Lemma auth_route_not_protected (currentPath : string) :
  Js.array_includes authRoutes currentPath = true ->
  matchesProtectedRoute currentPath = false.
Proof.
  rewrite auth_route_spec, matchesProtectedRoute_spec. intros H.
  apply orb_true_iff in H. destruct H as [H | H]; apply String.eqb_eq in H; subst;
    reflexivity.
Qed.

Lemma login_url_with_callback (base : URL) (currentPath : string) :
  searchParams_set "callbackUrl" currentPath (new_URL "/login" base)
    = mkURL (origin base) "/login" [("callbackUrl", currentPath)].
Proof. reflexivity. Qed.

(** X1.  Whatever the request, and whether or not reading it raises, a
    redirect of the guard stays on the origin of the request and goes to
    [/login] or to [/dashboard], nowhere else. *)
Theorem middleware_redirect_targets request target :
  middleware request = redirect target ->
  origin target = origin (url request) /\
  (pathname target = "/login" \/ pathname target = "/dashboard").
Proof.
  unfold middleware, try_body.
  destruct (nextUrl_pathname request) as [e | currentPath].
  - intros [= <-]. split; [reflexivity | left; reflexivity].
  - destruct (cookies_get request "accessToken") as [e | accessToken].
    + intros [= <-]. split; [reflexivity | left; reflexivity].
    + unfold classify.
      destruct (Js.truthy accessToken);
        destruct (Js.array_includes authRoutes currentPath);
        try destruct (matchesProtectedRoute currentPath);
        intros H; try discriminate H; injection H as <-;
        (split; [reflexivity | (left; reflexivity) || (right; reflexivity)]).
Qed.

(** X2.  Without a (non-empty) access token the guard redirects exactly the
    paths [/dashboard] and [/dashboard/...], to [/login] with the requested
    path as the only query parameter, [callbackUrl]; every other path, the
    auth-only ones included, passes. *)
Theorem middleware_without_token request currentPath accessToken :
  nextUrl_pathname request = inr currentPath ->
  cookies_get request "accessToken" = inr accessToken ->
  Js.truthy accessToken = false ->
  middleware request =
    if String.eqb currentPath "/dashboard" || Js.startsWith currentPath "/dashboard/"
    then redirect (mkURL (origin (url request)) "/login" [("callbackUrl", currentPath)])
    else next.
Proof.
  intros Hp Hc Ht. unfold middleware, try_body. rewrite Hp, Hc. unfold classify.
  rewrite Ht. destruct (Js.array_includes authRoutes currentPath) eqn:Ha.
  - rewrite <- matchesProtectedRoute_spec, (auth_route_not_protected _ Ha). reflexivity.
  - rewrite <- matchesProtectedRoute_spec.
    destruct (matchesProtectedRoute currentPath); reflexivity.
Qed.

(** X3.  With a non-empty access token the guard redirects exactly [/login]
    and [/register], to [/dashboard] without a query; every other path
    passes, protected or not. *)
Theorem middleware_with_token request currentPath tok :
  nextUrl_pathname request = inr currentPath ->
  cookies_get request "accessToken" = inr (Some tok) ->
  tok <> EmptyString ->
  middleware request =
    if String.eqb currentPath "/login" || String.eqb currentPath "/register"
    then redirect (mkURL (origin (url request)) "/dashboard" [])
    else next.
Proof.
  intros Hp Hc Ht. unfold middleware, try_body. rewrite Hp, Hc.
  rewrite (RouteGuardFacts.classify_authenticated _ _ _ Ht), auth_route_spec.
  reflexivity.
Qed.




Lemma middleware_redirect_targets_witness :
  origin (mkURL "https://shop.example" "/login" [("callbackUrl", "/dashboard/pos")])
    = "https://shop.example" /\
  (pathname (mkURL "https://shop.example" "/login" [("callbackUrl", "/dashboard/pos")])
     = "/login" \/
   pathname (mkURL "https://shop.example" "/login" [("callbackUrl", "/dashboard/pos")])
     = "/dashboard").
Proof.
  apply (middleware_redirect_targets
           (plain_request (mkURL "https://shop.example" "/dashboard/pos" []) ∅)).
  reflexivity.
Defined.

Lemma middleware_without_token_witness :
  middleware (plain_request (mkURL "https://shop.example" "/dashboard/pos" []) ∅)
    = redirect (mkURL "https://shop.example" "/login" [("callbackUrl", "/dashboard/pos")]) /\
  middleware (plain_request (mkURL "https://shop.example" "/dashboards" []) ∅) = next.
Proof.
  split.
  - exact (middleware_without_token
             (plain_request (mkURL "https://shop.example" "/dashboard/pos" []) ∅)
             "/dashboard/pos" None eq_refl eq_refl eq_refl).
  - exact (middleware_without_token
             (plain_request (mkURL "https://shop.example" "/dashboards" []) ∅)
             "/dashboards" None eq_refl eq_refl eq_refl).
Defined.

Lemma middleware_with_token_witness :
  middleware (plain_request (mkURL "https://shop.example" "/register" [])
                            {[ "accessToken" := "t0" ]})
    = redirect (mkURL "https://shop.example" "/dashboard" []) /\
  middleware (plain_request (mkURL "https://shop.example" "/pricing" [])
                            {[ "accessToken" := "t0" ]}) = next.
Proof.
  split.
  - exact (middleware_with_token
             (plain_request (mkURL "https://shop.example" "/register" [])
                            {[ "accessToken" := "t0" ]})
             "/register" "t0" eq_refl eq_refl ltac:(discriminate)).
  - exact (middleware_with_token
             (plain_request (mkURL "https://shop.example" "/pricing" [])
                            {[ "accessToken" := "t0" ]})
             "/pricing" "t0" eq_refl eq_refl ltac:(discriminate)).
Defined.


End RouteGuardMore.

Module ClientMore.
Import Client.

Section Instance.
Context {S Body : Type}.
Variable env : Env.
Variable backend : Backend S Body.
Implicit Types (w : World S) (config : Request).

Lemma onWire_authorization_without_token config w :
  Js.truthy (getCookie "accessToken" w) = false ->
  headers (onWire config w) !! "Authorization" = headers config !! "Authorization".
Proof.
  intros Ht. unfold onWire, requestInterceptor.
  destruct (getCookie "accessToken" w) as [t|]; [rewrite Ht |];
    unfold mergeConfig; cbn [headers];
    (destruct (headers config !! "Authorization") as [v|] eqn:E;
     [by apply lookup_union_Some_l
     | rewrite lookup_union_r by assumption; by apply lookup_singleton_ne]).
Qed.

(** X5.  Every call of the instance first dispatches the caller's request
    (same method, URL and body).  With a non-empty [accessToken] cookie that
    request carries [Authorization: Bearer <token>], whatever header the caller
    had set; with no cookie or an empty one the [Authorization] header is the
    caller's own, so absent if the caller set none. *)
Theorem request_carries_stored_token fuel config w :
  (2 <= fuel)%nat ->
  exists outcome w' new,
    axiosInstance env backend fuel config w = Some (outcome, w') /\
    trace w' = new ++ EvDispatch (onWire config w) :: trace w /\
    method (onWire config w) = method config /\
    url (onWire config w) = url config /\
    data (onWire config w) = data config /\
    (forall t, getCookie "accessToken" w = Some t -> t <> EmptyString ->
               headers (onWire config w) !! "Authorization"
                 = Some (String.append "Bearer " t)) /\
    (Js.truthy (getCookie "accessToken" w) = false ->
     headers (onWire config w) !! "Authorization" = headers config !! "Authorization").
Proof.
  intros Hfuel. destruct fuel as [|[|fuel]]; [lia | lia |].
  destruct (ClientFacts.axiosInstance_settles env backend fuel config w)
    as (outcome & w' & _ & Hrun & _).
  destruct (ClientFrame.axiosInstance_frame env backend _ _ _ _ _ Hrun)
    as (_ & _ & new & Hnew & _).
  destruct (ClientFacts.onWire_frame config w) as (Hm & Hu & Hd & _).
  exists outcome, w', new. repeat split; try assumption.
  - intros t Hc Ht. unfold onWire. by apply ClientFacts.requestInterceptor_bearer.
  - apply onWire_authorization_without_token.
Qed.

(** X6.  A reply that is no 401 failure - a response, a failure with
    another status, or a failure without response - is passed through as it
    is: one dispatch, no refresh call, no navigation, no cookie written. *)
Theorem other_replies_pass_through fuel config w reply s1 :
  (1 <= fuel)%nat ->
  transport backend (server w) (onWire config w) = (reply, s1) ->
  (forall r, reply = Failed (Some r) -> status r <> 401) ->
  exists w',
    axiosInstance env backend fuel config w
      = Some (settle (onWire config w) reply, w') /\
    cookies w' = cookies w /\
    window w' = window w /\
    server w' = s1 /\
    trace w' = EvDispatch (onWire config w) :: trace w.
Proof.
  intros Hfuel Ht Hn. destruct fuel as [|fuel]; [lia |].
  destruct reply as [body | response].
  - rewrite (ClientFacts.axiosInstance_step env backend fuel config w _ s1 Ht).
    eexists. repeat split.
  - rewrite (ClientFacts.axiosInstance_not_401 env backend fuel config w response s1).
    + eexists. repeat split.
    + intros r ->. apply Hn. reflexivity.
    + exact Ht.
Qed.

(** X7.  No call of the instance, however it ends, writes a cookie other
    than [accessToken] and [refreshToken], and the only navigation a call ever
    issues is the one to [/login]. *)
Theorem instance_touches_only_token_cookies fuel config w :
  (2 <= fuel)%nat ->
  exists outcome w' new,
    axiosInstance env backend fuel config w = Some (outcome, w') /\
    (forall name, name <> "accessToken" -> name <> "refreshToken" ->
                  cookies w' !! name = cookies w !! name) /\
    trace w' = new ++ trace w /\
    (forall target, In (EvNavigate target) new -> target = "/login").
Proof.
  intros Hfuel. destruct fuel as [|[|fuel]]; [lia | lia |].
  destruct (ClientFacts.axiosInstance_settles env backend fuel config w)
    as (outcome & w' & _ & Hrun & _).
  destruct (ClientFrame.axiosInstance_frame env backend _ _ _ _ _ Hrun)
    as (_ & Hc & new & Hnew & Hnav).
  exists outcome, w', (new ++ [EvDispatch (onWire config w)]).
  split; [exact Hrun |]. split; [exact Hc |]. split.
  - rewrite Hnew, <- app_assoc. reflexivity.
  - intros target Hin. apply in_app_or in Hin.
    destruct Hin as [Hin | [Hin | []]]; [exact (Hnav target Hin) | discriminate Hin].
Qed.

(** X8.  A refresh response without a payload object counts as a failed
    refresh: reading the token out of it raises, both token cookies are
    cleared, the navigation to [/login] is issued as for a failed refresh, and
    the caller gets the [TypeError], with no retry. *)
Theorem refresh_without_payload_fails fuel config w r s1 s2 :
  (1 <= fuel)%nat ->
  _retry config = false ->
  transport backend (server w) (onWire config w) = (Failed (Some r), s1) ->
  status r = 401 ->
  refresh backend s1 (refreshConfig env w) = (Replied None, s2) ->
  exists w',
    axiosInstance env backend fuel config w = Some (Rejected TypeError, w') /\
    cookies w' !! "accessToken" = Some clearedCookie /\
    cookies w' !! "refreshToken" = Some clearedCookie /\
    trace w' = navigation w ++ [EvRefresh (refreshConfig env w);
                                EvDispatch (onWire config w)] ++ trace w.
Proof.
  intros Hfuel Hm Ht Hs Hr. destruct fuel as [|fuel]; [lia |].
  rewrite (ClientFacts.axiosInstance_unauthorized env backend _ config w r s1 _ s2
             Hm Ht Hs Hr).
  rewrite ClientFacts.onRefreshError_spec. eexists. split; [reflexivity |].
  split; [apply ClientFacts.clearAuthCookies_access |].
  split; [apply ClientFacts.clearAuthCookies_refresh | reflexivity].
Qed.

End Instance.

Import Scenario.

Lemma request_carries_stored_token_witness :
  exists outcome w' new,
    axiosInstance env expiring 2 products browser = Some (outcome, w') /\
    trace w' = new ++ EvDispatch (onWire products browser) :: trace browser /\
    headers (onWire products browser) !! "Authorization" = Some "Bearer stale".
Proof.
  destruct (request_carries_stored_token env expiring 2 products browser)
    as (outcome & w' & new & Hrun & Htrace & _ & _ & _ & Hb & _); [lia |].
  exists outcome, w', new. split; [exact Hrun |]. split; [exact Htrace |].
  apply (Hb "stale"); [vm_compute; reflexivity | discriminate].
Defined.

Lemma other_replies_pass_through_witness :
  exists w',
    axiosInstance env (failing (Body := string)) 1 products browser
      = Some (Rejected (AxiosError (onWire products browser)
                          (Some (mkErrResponse 500 (Some "Service unavailable")))), w') /\
    cookies w' = cookies browser.
Proof.
  destruct (other_replies_pass_through env (failing (Body := string)) 1 products browser
              (Failed (Some (mkErrResponse 500 (Some "Service unavailable")))) 1%nat)
    as (w' & Hrun & Hc & _); [lia | vm_compute; reflexivity | |].
  - intros r [= <-]. discriminate.
  - exists w'. split; [exact Hrun | exact Hc].
Defined.

Lemma instance_touches_only_token_cookies_witness :
  exists outcome w' new,
    axiosInstance env revoked 2 products browser = Some (outcome, w') /\
    cookies w' !! "theme" = None /\
    trace w' = new ++ trace browser /\
    In (EvNavigate "/login") new.
Proof.
  destruct (instance_touches_only_token_cookies env revoked 2 products browser)
    as (outcome & w' & new & Hrun & Hc & Htrace & _); [lia |].
  exists outcome, w', new. split; [exact Hrun |].
  split; [rewrite (Hc "theme"); [vm_compute; reflexivity | discriminate | discriminate] |].
  split; [exact Htrace |].
  assert (Hw : trace w' = [EvNavigate "/login"; EvRefresh (refreshConfig env browser);
                           EvDispatch (onWire products browser)]).
  { revert Hrun. vm_compute. intros [= _ <-]. reflexivity. }
  rewrite Hw in Htrace. change (trace browser) with (@nil Event) in Htrace.
  rewrite app_nil_r in Htrace. subst new. left. reflexivity.
Defined.

Lemma refresh_without_payload_fails_witness :
  exists w',
    axiosInstance env (malformedRefresh (Body := string)) 1 products browser
      = Some (Rejected TypeError, w') /\
    cookies w' !! "accessToken" = Some clearedCookie /\
    cookies w' !! "refreshToken" = Some clearedCookie.
Proof.
  destruct (refresh_without_payload_fails env (malformedRefresh (Body := string)) 1
              products browser unauthorized 1%nat 2%nat)
    as (w' & Hrun & Ha & Hr & _);
    [lia | reflexivity | vm_compute; reflexivity | reflexivity | vm_compute; reflexivity |].
  exists w'. repeat split; assumption.
Defined.

End ClientMore.

Module UseAuthMore.
Import Client UseAuth.

Section Hook.
Context {S : Type}.
Variable env : Env.
Implicit Types (w : World S) (h : Hook).

Lemma fetchSession_settled_loading outcome w h :
  loading (snd (fetchSession_settled env outcome w h)) = false.
Proof.
  unfold fetchSession_settled.
  destruct outcome as [body | err]; [destruct (fetchSession_try env body w h) as [e | [w' h']] |];
    reflexivity.
Qed.

Lemma truthy_Some_eqb (s : string) : Js.truthy (Some s) = negb (String.eqb s "").
Proof. destruct s; reflexivity. Qed.

Lemma maxAge_seconds (expiresIn : Z) :
  Qfloor (inject_Z expiresIn / 1000) = expiresIn / 1000.
Proof.
  unfold Qdiv, Qmult, Qinv, inject_Z, Qfloor. cbn [Qnum Qden].
  rewrite Z.mul_1_r. reflexivity.
Qed.

(** X9.  A resolution that finds a user stores the user and the token of
    the response: the [accessToken] cookie gets that token with
    max-age [expiresIn / 1000] seconds, path [/] and [sameSite: strict]; no
    other cookie is written, the error is reset and loading ends.  The
    [Max-Age] the cookie is serialised with, the floor of that number, is at
    least one second exactly when [expiresIn] is at least 1000; under that
    condition the user counts as authenticated unless the token is the empty
    string.  (With a smaller [expiresIn] the browser does not keep the cookie,
    and nothing is stated about [isAuthenticated].) *)
Theorem fetchSession_success
    (backend : Backend S SessionResponse) fuel w h body w1 d u :
  get env backend fuel "/auth/session" w = Some (Fulfilled body, w1) ->
  status body = "SUCCESS" ->
  data body = Some d ->
  user d = Some u ->
  exists w' h' opts,
    fetchSession env backend fuel w h = Some (w', h') /\
    hook_user h' = Some u /\
    error h' = None /\
    loading h' = false /\
    cookies w' !! "accessToken" = Some (mkCookie (token d) opts) /\
    (maxAge opts * 1000 == inject_Z (expiresIn d))%Q /\
    (1 <= Qfloor (maxAge opts) <-> 1000 <= expiresIn d) /\
    path opts = "/" /\
    sameSite opts = Some "strict" /\
    secure opts = Some (production env) /\
    (forall name, name <> "accessToken" -> cookies w' !! name = cookies w1 !! name) /\
    trace w' = trace w1 /\
    (1000 <= expiresIn d ->
     isAuthenticated w' h' = negb (String.eqb (token d) "")).
Proof.
  intros Hget Hs Hd Hu. unfold fetchSession. rewrite Hget.
  unfold fetchSession_settled, fetchSession_try. rewrite Hs, Hd, Hu.
  cbn [String.eqb Ascii.eqb Bool.eqb].
  eexists _, _, _. split; [reflexivity |].
  split; [reflexivity |]. split; [reflexivity |]. split; [reflexivity |].
  split; [apply ClientFacts.cookies_setCookie_eq |].
  split.
  { cbn [maxAge]. rewrite Qmult_comm. apply Qmult_div_r. discriminate. }
  split.
  { cbn [maxAge]. rewrite maxAge_seconds.
    split; intros H; Z.div_mod_to_equations; lia. }
  split; [reflexivity |]. split; [reflexivity |]. split; [reflexivity |].
  split; [intros name Hn; apply ClientFacts.cookies_setCookie_ne; congruence |].
  split; [reflexivity |].
  intros _. unfold isAuthenticated. cbn [hook_user setLoading setError setUser].
  rewrite ClientFacts.getCookie_setCookie_eq. apply truthy_Some_eqb.
Qed.

Lemma fetchSession_ends (backend : Backend S SessionResponse) fuel w h :
  (2 <= fuel)%nat ->
  exists w' h',
    fetchSession env backend fuel w h = Some (w', h') /\
    loading h' = false.
Proof.
  intros Hfuel.
  destruct (UseAuthFacts.fetchSession_settles env backend fuel w h Hfuel)
    as (outcome & w1 & _ & Hrun).
  exists (fst (fetchSession_settled env outcome w1 h)),
         (snd (fetchSession_settled env outcome w1 h)).
  split; [rewrite Hrun, <- surjective_pairing; reflexivity |].
  apply fetchSession_settled_loading.
Qed.

(** X10.  Every resolution ends, whatever the backend answers - a user, no
    user, an error of any kind - and it ends out of the loading state. *)
Theorem fetchSession_leaves_loading (backend : Backend S SessionResponse) fuel w h :
  (2 <= fuel)%nat ->
  exists w' h',
    fetchSession env backend fuel w h = Some (w', h') /\
    loading h' = false.
Proof. apply fetchSession_ends. Qed.

(** X11.  [hasRole(role)] holds exactly when there is a user whose
    authorities contain [role] itself; without a user it is false for every
    role. *)
Theorem hasRole_iff h role :
  (hasRole h role = true <->
   exists u, hook_user h = Some u /\ In role (authorities u)) /\
  hasRole (setUser None h) role = false.
Proof.
  split; [| reflexivity]. unfold hasRole. destruct (hook_user h) as [u|].
  - rewrite existsb_exists. split.
    + intros (a & Ha & Heq). apply String.eqb_eq in Heq. subst.
      exists u. split; [reflexivity | exact Ha].
    + intros (u' & [= <-] & Hin). exists role. split; [exact Hin | apply String.eqb_refl].
  - split; [discriminate | intros (u & Hu & _); discriminate].
Qed.

(** X12.  After [logout] in a browser the next requests go out without
    the credentials of the session: the request interceptor adds no bearer
    header (the [Authorization] header is what the caller set, if anything),
    and [hasRole] is false for every role. *)
Theorem logout_then_requests_anonymous {Body : Type} (backend : Backend S Body)
    fuel w h pathname :
  (2 <= fuel)%nat ->
  window w = Some pathname ->
  exists w' h',
    logout env backend fuel w h = Some (Fulfilled tt, w', h') /\
    (forall config,
        headers (onWire config w') !! "Authorization" = headers config !! "Authorization") /\
    (forall role, hasRole h' role = false).
Proof.
  intros Hfuel Hwin.
  destruct (UseAuthFacts.logout_settles env backend fuel w h Hfuel)
    as (outcome & w1 & _ & Hw & Hl).
  rewrite Hl. unfold logout_settled.
  set (w2 := match outcome with Fulfilled _ => w1 | Rejected _ => log _ w1 end).
  assert (Hw2 : window (clearAuthCookies w2) = Some pathname).
  { rewrite <- Hwin, <- Hw. unfold w2. destruct outcome; reflexivity. }
  rewrite Hw2. eexists _, _. split; [reflexivity |]. split; [| reflexivity].
  intros config. apply ClientMore.onWire_authorization_without_token.
  unfold getCookie. cbn [cookies log].
  rewrite ClientFacts.clearAuthCookies_access. reflexivity.
Qed.

End Hook.

Import Scenario.

Lemma fetchSession_success_witness :
  exists w' h' opts,
    fetchSession env (answering (Cases.sessionOf alice)) 2 visitor initial = Some (w', h') /\
    hook_user h' = Some alice /\
    cookies w' !! "accessToken" = Some (mkCookie "t1" opts) /\
    (maxAge opts * 1000 == 3600000)%Q /\
    isAuthenticated w' h' = true.
Proof.
  destruct (fetchSession_success env (answering (Cases.sessionOf alice)) 2 visitor initial
              (Cases.sessionOf alice)
              (log (EvDispatch (onWire (mkRequest "get" "/auth/session" ∅ None false)
                                       visitor))
                   (set_server 1%nat visitor))
              (mkSessionData (Some alice) "t1" 3600000) alice)
    as (w' & h' & opts & Hrun & Hu & _ & _ & Hc & Hm & _ & _ & _ & _ & _ & _ & Ha);
    [vm_compute; reflexivity | reflexivity | reflexivity | reflexivity |].
  exists w', h', opts. split; [exact Hrun |]. split; [exact Hu |].
  split; [exact Hc |]. split; [exact Hm |]. apply Ha. cbn [expiresIn]. lia.
Defined.

Lemma fetchSession_leaves_loading_witness :
  exists w' h',
    fetchSession env malformedRefresh 2 browser initial = Some (w', h') /\
    loading h' = false.
Proof. apply (fetchSession_leaves_loading env malformedRefresh 2 browser initial). lia. Defined.

Lemma logout_then_requests_anonymous_witness :
  exists w' h',
    logout env expiring 2 browser signedIn = Some (Fulfilled tt, w', h') /\
    headers (onWire products w') !! "Authorization" = None /\
    hasRole h' "ADMIN" = false.
Proof.
  destruct (logout_then_requests_anonymous env expiring 2 browser signedIn "/dashboard")
    as (w' & h' & Hrun & Hh & Hr); [lia | reflexivity |].
  exists w', h'. split; [exact Hrun |]. split; [| apply Hr].
  rewrite Hh. vm_compute. reflexivity.
Defined.

End UseAuthMore.

Module PagesMore.
Import Client UseAuth Pages.

Section Pages.
Context {S : Type}.
Variable env : Env.
Implicit Types (w : World S) (h : Hook).

Lemma isAuthenticated_user w h :
  isAuthenticated w h = true -> exists u, hook_user h = Some u.
Proof.
  unfold isAuthenticated. destruct (hook_user h) as [u|]; [| discriminate].
  intros _. exists u. reflexivity.
Qed.

(** What the layout does with a hook that is no longer loading: the shell
    for the user, or [null] together with the push to [/login]. *)
Lemma layout_resolved greeting w h :
  loading h = false ->
  (exists u,
      hook_user h = Some u /\
      isAuthenticated w h = true /\
      render greeting w h =
        Shell (String.append greeting (String.append ", " (String.append (name u) "!")))
              (Some u) /\
      guardEffect w h = None) \/
  (isAuthenticated w h = false /\
   render greeting w h = Null /\
   guardEffect w h = Some "/login").
Proof.
  intros Hl. unfold render, guardEffect. rewrite Hl.
  destruct (isAuthenticated w h) eqn:Ha.
  - left. destruct (isAuthenticated_user w h Ha) as [u Hu].
    exists u. rewrite Hu. repeat split.
  - right. repeat split.
Qed.

(** X13.  The dashboard layout shows the shell only for a hook that has
    stopped loading, holds a user and sees a non-empty [accessToken] cookie; the
    headline then always greets that user by name and the user menu is there.
    While loading it shows the spinner and pushes nothing. *)
Theorem layout_shell_only_when_authenticated greeting w h :
  (forall headline userNav,
      render greeting w h = Shell headline userNav ->
      loading h = false /\
      exists u c,
        hook_user h = Some u /\
        cookies w !! "accessToken" = Some c /\ value c <> EmptyString /\
        userNav = Some u /\
        headline =
          String.append greeting (String.append ", " (String.append (name u) "!"))) /\
  (loading h = true -> render greeting w h = Spinner /\ guardEffect w h = None).
Proof.
  split.
  - intros headline userNav Hr. destruct (loading h) eqn:Hl.
    + unfold render in Hr. rewrite Hl in Hr. discriminate.
    + split; [reflexivity |].
      destruct (layout_resolved greeting w h Hl) as [(u & Hu & Ha & Hs & _) | (_ & Hn & _)].
      * apply UseAuthFacts.isAuthenticated_true in Ha.
        destruct Ha as (_ & c & Hc & Hv).
        rewrite Hs in Hr. injection Hr as <- <-.
        exists u, c. repeat split; assumption.
      * rewrite Hn in Hr. discriminate.
  - intros Hl. unfold render, guardEffect. rewrite Hl. split; reflexivity.
Qed.

(** X14.  After every session resolution the layout is decided: either
    the shell is shown for the resolved user and nothing is pushed, or nothing
    is rendered and [/login] is pushed. *)
Theorem layout_after_resolution
    (backend : Backend S SessionResponse) fuel w h greeting :
  (2 <= fuel)%nat ->
  exists w' h',
    fetchSession env backend fuel w h = Some (w', h') /\
    ((exists u,
         hook_user h' = Some u /\
         render greeting w' h' =
           Shell (String.append greeting (String.append ", " (String.append (name u) "!")))
                 (Some u) /\
         guardEffect w' h' = None) \/
     (isAuthenticated w' h' = false /\
      render greeting w' h' = Null /\
      guardEffect w' h' = Some "/login")).
Proof.
  intros Hfuel.
  destruct (UseAuthMore.fetchSession_ends env backend fuel w h Hfuel)
    as (w' & h' & Hrun & Hl).
  exists w', h'. split; [exact Hrun |].
  destruct (layout_resolved greeting w' h' Hl) as [(u & Hu & _ & Hs & Hg) | H].
  - left. exists u. repeat split; assumption.
  - right. exact H.
Qed.

(** X15.  The home page and the route guard agree: the request for the path
    [checkToken] replaces the route with, sent with the cookies of the
    browser, passes the guard. *)
Theorem home_target_passes_guard w (u : Url.URL) :
  Url.pathname u = checkToken w ->
  RouteGuard.middleware (RouteGuard.plain_request u (value <$> cookies w))
    = RouteGuard.next.
Proof.
  intros Hp. unfold RouteGuard.middleware, RouteGuard.try_body, RouteGuard.plain_request.
  cbn [RouteGuard.nextUrl_pathname RouteGuard.cookies_get RouteGuard.url].
  rewrite Hp. unfold checkToken, getCookie. rewrite lookup_fmap.
  unfold RouteGuard.classify.
  destruct (cookies w !! "accessToken") as [c|]; cbn [fmap option_fmap option_map].
  - destruct (Js.truthy (Some (value c))); reflexivity.
  - reflexivity.
Qed.

End Pages.

Import Scenario.

Lemma layout_shell_only_when_authenticated_witness :
  render "Good morning" browser signedIn = Shell "Good morning, Alice!" (Some alice) /\
  render "Good morning" browser initial = Spinner.
Proof.
  destruct (layout_shell_only_when_authenticated "Good morning" browser initial)
    as [_ Hspin].
  split; [vm_compute; reflexivity | apply Hspin; reflexivity].
Defined.

Lemma layout_after_resolution_witness :
  exists w' h',
    fetchSession env failing 2 browser signedIn = Some (w', h') /\
    render "Good evening" w' h' = Null /\
    guardEffect w' h' = Some "/login".
Proof.
  destruct (layout_after_resolution env failing 2 browser signedIn "Good evening")
    as (w' & h' & Hrun & [(u & Hu & _) | (_ & Hn & Hg)]); [lia | |].
  - exfalso. revert Hrun Hu. vm_compute. intros [= _ <-]. discriminate.
  - exists w', h'. repeat split; assumption.
Defined.

Lemma home_target_passes_guard_witness :
  RouteGuard.middleware
    (RouteGuard.plain_request (Url.mkURL "https://shop.example" "/dashboard" [])
                              (value <$> cookies browser))
    = RouteGuard.next.
Proof.
  apply (home_target_passes_guard browser (Url.mkURL "https://shop.example" "/dashboard" [])).
  vm_compute. reflexivity.
Defined.

End PagesMore.

Module LoginMore.
Import Client Login.

Section Page.
Context {S : Type}.
Variable env : Env.
Implicit Types (w : World S) (p : Page).

(** X16.  A login that issues an access token stores the refresh token of
    the response, when it has a non-empty one, with the very options of the
    access token; when it has none, the [refreshToken] cookie of an earlier
    session is left in the jar.  The success toast is shown and the redirect
    is started, with the form still submitting. *)
Theorem login_refresh_token_follows_access_token
    (backend : Backend S LoginResponse) fuel credentials rememberMe w p d tok w1 :
  post env backend fuel "/auth/authenticate" (Some credentials) w
    = Some (Fulfilled (mkLoginResponse (Some d)), w1) ->
  accessToken d = Some tok ->
  tok <> EmptyString ->
  exists w' p',
    onSubmit env backend fuel credentials rememberMe w p = Some (w', p') /\
    (forall rtok, refreshToken d = Some rtok -> rtok <> EmptyString ->
                  cookies w' !! "refreshToken"
                    = Some (mkCookie rtok (loginOptions env rememberMe)) /\
                  exists c, cookies w' !! "accessToken" = Some c /\
                            options c = loginOptions env rememberMe) /\
    (Js.truthy (refreshToken d) = false ->
     cookies w' !! "refreshToken" = cookies w1 !! "refreshToken") /\
    (forall name, name <> "accessToken" -> name <> "refreshToken" ->
                  cookies w' !! name = cookies w1 !! name) /\
    isRedirecting p' = true /\
    isSubmitting p' = true /\
    toasts p' = mkToast "Success! Welcome back!" "Preparing your dashboard..." 3000
                  :: toasts p.
Proof.
  intros Hpost Hd Ht. unfold onSubmit. rewrite Hpost.
  unfold onSubmit_settled, onSubmit_try. cbn [data]. rewrite Hd.
  rewrite (JsFacts.truthy_Some_nonempty tok Ht).
  eexists _, _. split; [reflexivity |].
  destruct (refreshToken d) as [rtok|] eqn:Hr.
  - destruct (Js.truthy (Some rtok)) eqn:Hrt.
    + split.
      { intros rtok' [= <-] _. split; [apply ClientFacts.cookies_setCookie_eq |].
        eexists. split; [rewrite ClientFacts.cookies_setCookie_ne by discriminate;
                         apply ClientFacts.cookies_setCookie_eq | reflexivity]. }
      split; [discriminate |].
      split; [| repeat split].
      intros name Ha Hn. rewrite !ClientFacts.cookies_setCookie_ne by congruence.
      reflexivity.
    + split.
      { intros rtok' [= <-] Hne.
        rewrite (JsFacts.truthy_Some_nonempty rtok Hne) in Hrt. discriminate. }
      split; [intros _; apply ClientFacts.cookies_setCookie_ne; discriminate |].
      split; [| repeat split].
      intros name Ha Hn. apply ClientFacts.cookies_setCookie_ne. congruence.
  - split; [discriminate |].
    split; [intros _; apply ClientFacts.cookies_setCookie_ne; discriminate |].
    split; [| repeat split].
    intros name Ha Hn. apply ClientFacts.cookies_setCookie_ne. congruence.
Qed.

(** X17.  A login response whose payload has no (or an empty) access token
    changes nothing but the submitting flag: no cookie is written, no toast is
    shown, no redirect is started, and the form stays in the submitting
    state. *)
Theorem login_without_token_stays_submitting
    (backend : Backend S LoginResponse) fuel credentials rememberMe w p d w1 :
  post env backend fuel "/auth/authenticate" (Some credentials) w
    = Some (Fulfilled (mkLoginResponse (Some d)), w1) ->
  Js.truthy (accessToken d) = false ->
  onSubmit env backend fuel credentials rememberMe w p
    = Some (w1, mkPage true (isRedirecting p) (toasts p)).
Proof.
  intros Hpost Ht. unfold onSubmit. rewrite Hpost.
  unfold onSubmit_settled, onSubmit_try. cbn [data].
  destruct (accessToken d) as [tok|]; [rewrite Ht |]; reflexivity.
Qed.

(** X18.  A login request that is rejected, and equally a response without
    payload, writes no cookie and starts no redirect: it shows one
    ["Login Failed"] toast, with the message of the error response when that
    is non-empty and ["An unexpected error occurred"] otherwise, and ends the
    submitting state. *)
Theorem login_failure_shows_toast
    (backend : Backend S LoginResponse) fuel credentials rememberMe w p outcome w1 :
  post env backend fuel "/auth/authenticate" (Some credentials) w = Some (outcome, w1) ->
  (exists err, outcome = Rejected err) \/ outcome = Fulfilled (mkLoginResponse None) ->
  exists description,
    onSubmit env backend fuel credentials rememberMe w p
      = Some (w1, mkPage false (isRedirecting p)
                         (mkToast "Login Failed" description 5000 :: toasts p)) /\
    description <> EmptyString /\
    description =
      Js.or_else
        match outcome with
        | Rejected (AxiosError _ (Some response)) => Client.message response
        | _ => None
        end "An unexpected error occurred".
Proof.
  intros Hpost Hout. unfold onSubmit. rewrite Hpost.
  unfold onSubmit_settled. destruct Hout as [[err ->] | ->].
  - unfold onSubmit_catch. eexists. split; [reflexivity |].
    split; [| destruct err as [config [response|] | |]; reflexivity].
    match goal with |- Js.or_else ?a ?b <> _ =>
      destruct (JsFacts.or_else_cases a b) as [-> | [_ H]]; [discriminate | exact H]
    end.
  - cbn. eexists. split; [reflexivity |]. split; [discriminate | reflexivity].
Qed.

(** X19.  Wrong credentials answered with a 401 go through the refresh
    cycle like any other request.  On the login page, when that refresh
    fails, the token cookies are cleared, no navigation is issued, and the
    toast shows the message of the refresh failure, not the one the login
    endpoint sent. *)
Theorem login_401_reports_refresh_failure
    (backend : Backend S LoginResponse) fuel credentials rememberMe w p
    r s1 response s2 pathname :
  (1 <= fuel)%nat ->
  window w = Some pathname ->
  Js.includes pathname "/login" = true ->
  transport backend (server w)
    (onWire (mkRequest "post" "/auth/authenticate" ∅ (Some credentials) false) w)
    = (Failed (Some r), s1) ->
  status r = 401 ->
  refresh backend s1 (refreshConfig env w) = (Failed response, s2) ->
  exists w',
    onSubmit env backend fuel credentials rememberMe w p
      = Some (w', mkPage false (isRedirecting p)
                         (mkToast "Login Failed"
                            (Js.or_else (match response with
                                         | Some r2 => Client.message r2
                                         | None => None
                                         end) "An unexpected error occurred")
                            5000 :: toasts p)) /\
    cookies w' !! "accessToken" = Some clearedCookie /\
    cookies w' !! "refreshToken" = Some clearedCookie /\
    count_refresh (trace w') = (1 + count_refresh (trace w))%nat /\
    (forall href, In (EvNavigate href) (trace w') -> In (EvNavigate href) (trace w)).
Proof.
  intros Hfuel Hwin Hinc Ht Hs Hr. destruct fuel as [|fuel]; [lia |].
  unfold onSubmit, post.
  rewrite (ClientFacts.axiosInstance_unauthorized env backend fuel
             (mkRequest "post" "/auth/authenticate" ∅ (Some credentials) false)
             w r s1 _ s2 eq_refl Ht Hs Hr).
  rewrite ClientFacts.onRefreshError_spec.
  unfold onSubmit_settled, onSubmit_catch.
  assert (Hnav : navigation (afterRefresh env
                               (mkRequest "post" "/auth/authenticate" ∅ (Some credentials)
                                          false) w s1 s2) = []).
  { unfold navigation, navigates. cbn [window afterRefresh log set_server].
    rewrite Hwin, Hinc. reflexivity. }
  rewrite Hnav. eexists. split; [destruct response; reflexivity |].
  split; [apply ClientFacts.clearAuthCookies_access |].
  split; [apply ClientFacts.clearAuthCookies_refresh |].
  cbn [trace afterRefresh log set_server app].
  split; [reflexivity |].
  intros href [H | [H | H]]; [discriminate H | discriminate H | exact H].
Qed.

End Page.

Import Scenario Cases.

Lemma login_refresh_token_follows_access_token_witness :
  (exists w' p',
      onSubmit env (answering issued) 2 "credentials" true visitor blank = Some (w', p') /\
      cookies w' !! "refreshToken" = Some (mkCookie "r1" (loginOptions env true)) /\
      isRedirecting p' = true) /\
  (exists w' p',
      onSubmit env (answering issuedWithoutRefresh) 2 "credentials" false returning blank
        = Some (w', p') /\
      cookies w' !! "refreshToken" = Some (mkCookie "r0" (strict 2592000))).
Proof.
  split.
  - destruct (login_refresh_token_follows_access_token env (answering issued) 2
                "credentials" true visitor blank
                (mkLoginData (Some "a1") (Some "r1")) "a1"
                (log (EvDispatch (onWire (mkRequest "post" "/auth/authenticate" ∅
                                                    (Some "credentials") false) visitor))
                     (set_server 1%nat visitor)))
      as (w' & p' & Hrun & Hr & _ & _ & Hred & _);
      [vm_compute; reflexivity | reflexivity | discriminate |].
    exists w', p'. split; [exact Hrun |]. split; [| exact Hred].
    apply (Hr "r1"); [reflexivity | discriminate].
  - destruct (login_refresh_token_follows_access_token env (answering issuedWithoutRefresh) 2
                "credentials" false returning blank
                (mkLoginData (Some "a2") None) "a2"
                (log (EvDispatch (onWire (mkRequest "post" "/auth/authenticate" ∅
                                                    (Some "credentials") false) returning))
                     (set_server 1%nat returning)))
      as (w' & p' & Hrun & _ & Hr & _);
      [vm_compute; reflexivity | reflexivity | discriminate |].
    exists w', p'. split; [exact Hrun |].
    rewrite Hr by reflexivity. vm_compute. reflexivity.
Defined.

Lemma login_without_token_stays_submitting_witness :
  exists w',
    onSubmit env (answering issuedNothing) 2 "credentials" false visitor blank
      = Some (w', mkPage true false []) /\
    cookies w' = ∅.
Proof.
  eexists. split.
  - apply (login_without_token_stays_submitting env (answering issuedNothing) 2
             "credentials" false visitor blank (mkLoginData None None));
      [vm_compute; reflexivity | reflexivity].
  - reflexivity.
Defined.

Lemma login_failure_shows_toast_witness :
  exists w',
    onSubmit env invalid 2 "credentials" false visitor blank
      = Some (w', mkPage false false [mkToast "Login Failed" "Invalid email address" 5000]) /\
    cookies w' = ∅.
Proof.
  destruct (login_failure_shows_toast env invalid 2 "credentials" false visitor blank
              (Rejected (AxiosError
                           (onWire (mkRequest "post" "/auth/authenticate" ∅
                                              (Some "credentials") false) visitor)
                           (Some (mkErrResponse 400 (Some "Invalid email address")))))
              (log (EvDispatch (onWire (mkRequest "post" "/auth/authenticate" ∅
                                                  (Some "credentials") false) visitor))
                   (set_server 1%nat visitor)))
    as (description & Hrun & _ & Hd);
    [vm_compute; reflexivity | left; eexists; reflexivity |].
  eexists. split; [rewrite Hrun, Hd; reflexivity | reflexivity].
Defined.

Lemma login_401_reports_refresh_failure_witness :
  exists w',
    onSubmit env badCredentials 1 "credentials" false returning blank
      = Some (w', mkPage false false
                         [mkToast "Login Failed" "Refresh token is required" 5000]) /\
    cookies w' !! "refreshToken" = Some clearedCookie.
Proof.
  destruct (login_401_reports_refresh_failure env badCredentials 1 "credentials" false
              returning blank (mkErrResponse 401 (Some "Bad credentials")) 1%nat
              (Some (mkErrResponse 403 (Some "Refresh token is required"))) 2%nat "/login")
    as (w' & Hrun & _ & Hr & _);
    [lia | reflexivity | reflexivity | vm_compute; reflexivity | reflexivity
     | vm_compute; reflexivity |].
  exists w'. split; [exact Hrun | exact Hr].
Defined.

End LoginMore.

Module CountdownMore.
Import Countdown.

Lemma afterTimers_spec (n : nat) : forall countdown,
  afterTimers n countdown = countdown - Z.of_nat n.
Proof.
  induction n as [|n IH]; intros countdown.
  - simpl. lia.
  - cbn [afterTimers]. rewrite IH. unfold onTimeout. lia.
Qed.

(** X20.  While redirecting, a countdown that starts at [n] arms a
    one-second timer after each of the first [n] renders and then replaces
    the route with [/dashboard]; from the initial value that is after three
    timers.  The effect never replaces the route with anything else, and does
    nothing while the page is not redirecting. *)
Theorem countdown_replaces_with_dashboard :
  (forall n k : nat,
      (k < n)%nat -> effect true (afterTimers k (Z.of_nat n)) = SetTimeout 1000) /\
  (forall n : nat, effect true (afterTimers n (Z.of_nat n)) = RouterReplace "/dashboard") /\
  effect true (afterTimers 3 initialCountdown) = RouterReplace "/dashboard" /\
  (forall isRedirecting countdown target,
      effect isRedirecting countdown = RouterReplace target ->
      target = "/dashboard" /\ isRedirecting = true /\ countdown = 0) /\
  (forall countdown, effect false countdown = Idle).
Proof.
  split; [| split; [| split; [| split]]].
  - intros n k Hk. rewrite afterTimers_spec. unfold effect.
    replace (Z.of_nat n - Z.of_nat k >? 0) with true; [reflexivity |].
    symmetry. apply Z.gtb_lt. lia.
  - intros n. rewrite afterTimers_spec, Z.sub_diag. reflexivity.
  - reflexivity.
  - intros isRedirecting countdown target. unfold effect.
    destruct isRedirecting; cbn [andb]; [| discriminate].
    destruct (countdown >? 0); [discriminate |].
    destruct (countdown =? 0) eqn:E; [| discriminate].
    intros [= <-]. apply Z.eqb_eq in E. repeat split. exact E.
  - reflexivity.
Qed.

Lemma countdown_replaces_with_dashboard_witness :
  effect true (afterTimers 2 (Z.of_nat 3)) = SetTimeout 1000 /\
  effect true (afterTimers 3 (Z.of_nat 3)) = RouterReplace "/dashboard".
Proof.
  destruct countdown_replaces_with_dashboard as (Hbefore & Hat & _).
  split; [apply (Hbefore 3%nat 2%nat); lia | apply (Hat 3%nat)].
Defined.

End CountdownMore.

Module SidebarMore.
Import Sidebar.

(** Two prefixes of one string are comparable. *)
Lemma prefix_comparable : forall p a b : string,
  String.prefix a p = true -> String.prefix b p = true ->
  String.prefix a b = true \/ String.prefix b a = true.
Proof.
  induction p as [|c p IH]; intros a b Ha Hb;
    destruct a as [|ca a]; destruct b as [|cb b];
    try (left; reflexivity); try (right; reflexivity); try discriminate.
  cbn [String.prefix] in *.
  destruct (ascii_dec ca c) as [-> |]; [| discriminate].
  destruct (ascii_dec cb c) as [-> |]; [| discriminate].
  destruct (ascii_dec c c) as [_ | Hn]; [| congruence].
  apply IH; assumption.
Qed.

Lemma targets_guarded_check :
  forallb (fun target => RouteGuard.matchesProtectedRoute target
                         && negb (Js.includes target "/login"))
          (flat_map linkTargets sidebarLinks) = true.
Proof. vm_compute. reflexivity. Qed.

(** X21.  Every path the sidebar links to is a protected route that does
    not contain [/login]: a visitor without access token who follows it is
    sent to [/login] with that path as [callbackUrl], and a session that
    fails to refresh on that page is navigated to [/login]. *)
Theorem sidebar_targets_are_guarded link target :
  In link sidebarLinks ->
  In target (linkTargets link) ->
  (forall request,
      RouteGuard.nextUrl_pathname request = inr target ->
      RouteGuard.cookies_get request "accessToken" = inr None ->
      RouteGuard.middleware request =
        RouteGuard.redirect
          (Url.mkURL (Url.origin (RouteGuard.url request)) "/login"
                     [("callbackUrl", target)])) /\
  (forall (S : Type) (w : Client.World S),
      Client.window w = Some target -> Client.navigates w = true).
Proof.
  intros Hl Ht.
  assert (Hin : In target (flat_map linkTargets sidebarLinks)).
  { apply in_flat_map. exists link. split; assumption. }
  pose proof (proj1 (forallb_forall _ _) targets_guarded_check target Hin) as Hcheck.
  apply andb_true_iff in Hcheck. destruct Hcheck as [Hprot Hlogin].
  split.
  - intros request Hp Hc.
    unfold RouteGuard.middleware, RouteGuard.try_body. rewrite Hp, Hc.
    unfold RouteGuard.classify. cbn [Js.truthy]. rewrite Hprot.
    destruct (Js.array_includes RouteGuard.authRoutes target) eqn:Ha; [| reflexivity].
    rewrite (RouteGuardMore.auth_route_not_protected _ Ha) in Hprot. discriminate.
  - intros S w Hw. unfold Client.navigates. rewrite Hw. exact Hlogin.
Qed.

Local Ltac active_cases H :=
  cbn [isLinkActive subLinks href existsb sub_href] in H; unfold Js.startsWith in H;
  repeat (apply orb_true_iff in H; destruct H as [H | H]);
  try discriminate H.

Local Ltac clash H1 H2 :=
  first
    [ apply String.eqb_eq in H1; subst; vm_compute in H2; discriminate H2
    | apply String.eqb_eq in H2; subst; vm_compute in H1; discriminate H1
    | let X := fresh in
      destruct (prefix_comparable _ _ _ H1 H2) as [X | X];
      vm_compute in X; discriminate X ].

(** X22.  For every pathname at most one entry of the sidebar is active. *)
Theorem sidebar_at_most_one_active pathname link1 link2 :
  In link1 sidebarLinks ->
  In link2 sidebarLinks ->
  isLinkActive pathname link1 = true ->
  isLinkActive pathname link2 = true ->
  link1 = link2.
Proof.
  intros H1 H2 A1 A2. unfold sidebarLinks in H1, H2. cbn [In] in H1, H2.
  repeat (destruct H1 as [<- | H1]); [.. | contradiction];
    repeat (destruct H2 as [<- | H2]); try contradiction; try reflexivity;
    exfalso; active_cases A1; active_cases A2; clash A1 A2.
Qed.

(** X23.  [toggleExpand] flips the membership of the toggled entry and of
    no other, records the new set as the stored one, and toggling the same
    entry twice gives back the expanded set. *)
Theorem toggleExpand_flips target nav :
  (target ∈ expandedLinks (toggleExpand target nav) <-> target ∉ expandedLinks nav) /\
  (forall other, other <> target ->
                 (other ∈ expandedLinks (toggleExpand target nav)
                  <-> other ∈ expandedLinks nav)) /\
  stored (toggleExpand target nav) = Some (expandedLinks (toggleExpand target nav)) /\
  expandedLinks (toggleExpand target (toggleExpand target nav)) = expandedLinks nav.
Proof.
  unfold toggleExpand. cbn [expandedLinks stored].
  destruct (decide (target ∈ expandedLinks nav)) as [Hin | Hout].
  - split; [rewrite elem_of_difference, elem_of_singleton; tauto |].
    split; [intros other Hne; rewrite elem_of_difference, elem_of_singleton; tauto |].
    split; [reflexivity |].
    rewrite decide_False by (rewrite elem_of_difference, elem_of_singleton; tauto).
    apply set_eq. intros x.
    rewrite elem_of_union, elem_of_difference, elem_of_singleton.
    destruct (decide (x = target)) as [-> | Hne]; tauto.
  - split; [rewrite elem_of_union, elem_of_singleton; tauto |].
    split; [intros other Hne; rewrite elem_of_union, elem_of_singleton; tauto |].
    split; [reflexivity |].
    rewrite decide_True by (rewrite elem_of_union, elem_of_singleton; tauto).
    apply set_eq. intros x.
    rewrite elem_of_difference, elem_of_union, elem_of_singleton.
    destruct (decide (x = target)) as [-> | Hne]; tauto.
Qed.

Lemma sidebar_targets_are_guarded_witness :
  RouteGuard.middleware
    (RouteGuard.plain_request
       (Url.mkURL "https://shop.example" "/dashboard/pos/new-sale" []) ∅)
    = RouteGuard.redirect
        (Url.mkURL "https://shop.example" "/login"
                   [("callbackUrl", "/dashboard/pos/new-sale")]).
Proof.
  refine (proj1 (sidebar_targets_are_guarded
                   (mkLink "POS" "/dashboard/pos"
                      (Some [ mkSubLink "Dashboard" "/dashboard/pos/dashboard";
                              mkSubLink "New Sale" "/dashboard/pos/new-sale";
                              mkSubLink "Sale History" "/dashboard/pos/sale-history";
                              mkSubLink "Report" "/dashboard/pos/report" ]))
                   "/dashboard/pos/new-sale" _ _)
                (RouteGuard.plain_request
                   (Url.mkURL "https://shop.example" "/dashboard/pos/new-sale" []) ∅)
                eq_refl eq_refl).
  - right. left. reflexivity.
  - right. left. reflexivity.
Defined.

Lemma sidebar_at_most_one_active_witness :
  forallb (fun link => negb (isLinkActive "/dashboard/pos/report/2024" link)
                       || String.eqb (label link) "POS") sidebarLinks = true /\
  nth 1 sidebarLinks (mkLink "" "" None) = nth 1 sidebarLinks (mkLink "" "" None).
Proof.
  split; [vm_compute; reflexivity |].
  apply (sidebar_at_most_one_active "/dashboard/pos/report/2024");
    [right; left; reflexivity | right; left; reflexivity
     | vm_compute; reflexivity | vm_compute; reflexivity].
Defined.

End SidebarMore.
